(** * ScreencastPanel: the singleton screencast panel controller

    A shallow embedding of [src/screencastPanel.ts].  The controller keeps
    one static slot ([ScreencastPanel.instance]), owns a host webview panel
    and a socket bridge, and reacts to five subscriptions.  The host and the
    collaborators the file imports are not part of it: their calls are
    recorded in an effect log, and the little state of theirs that the
    controller reads or changes (a panel's visibility and HTML, whether a
    panel or a socket was released) lives in the [world]. *)

From Stdlib Require Import ZArith Ascii String.
From stdpp Require Import base option list strings relations.

Open Scope N_scope.
Open Scope nat_scope.
Open Scope string_scope.
Open Scope list_scope.

(** ** JavaScript strings

    A JavaScript string is a sequence of 16-bit code units. *)

Definition jsstring := list N.

(** An ASCII literal as a JavaScript string. *)
Definition js (s : string) : jsstring :=
  map N_of_ascii (list_ascii_of_string s).

(** The same, with every apostrophe standing for a double quote, so that
    JSON texts can be written down. *)
Definition jsq (s : string) : jsstring :=
  map (fun c : N => if N.eqb c 39 then 34%N else c) (js s).

(** ** JSON values, as [JSON.parse] builds them *)

(** The mathematical value of a JSON number literal is
    [(-1)^neg * mant * 10^expo]. *)
Record number := Number { neg : bool; mant : N; expo : Z }.

#[warnings="-register-all"]
Inductive json :=
| JNull
| JBool (b : bool)
| JNum (n : number)
| JStr (s : jsstring)
| JArr (items : list json)
| JObj (members : list (jsstring * json)).

(** [CreateDataProperty]: a repeated key keeps its place and takes the
    later value. *)
Fixpoint obj_set (m : list (jsstring * json)) (k : jsstring) (v : json)
  : list (jsstring * json) :=
  match m with
  | [] => [(k, v)]
  | (k', v') :: m' =>
      if decide (k' = k) then (k', v) :: m' else (k', v') :: obj_set m' k v
  end.

Fixpoint obj_get (m : list (jsstring * json)) (k : jsstring) : option json :=
  match m with
  | [] => None
  | (k', v') :: m' => if decide (k' = k) then Some v' else obj_get m' k
  end.

(** *** The lexer: one code unit per step *)

Inductive token :=
| TLBrace | TRBrace | TLBrack | TRBrack | TColon | TComma
| TString (s : jsstring)
| TNumber (n : number)
| TTrue | TFalse | TNull.

Inductive numphase :=
| NMinus   (* after the sign: a digit must follow *)
| NZero    (* the integer part is the single digit 0 *)
| NInt     (* inside an integer part that starts with 1-9 *)
| NDot     (* after the point: a digit must follow *)
| NFrac    (* inside the fraction *)
| NE       (* after e or E: a sign or a digit must follow *)
| NESign   (* after the exponent's sign: a digit must follow *)
| NExp.    (* inside the exponent *)

Inductive lexstate :=
| LIdle
| LStr (acc : list N)
| LEsc (acc : list N)
| LHex (acc : list N) (todo : nat) (v : N)
| LLit (rest : list N) (t : token)
| LNum (ph : numphase) (sgn : bool) (m : N) (fracs : N) (esgn : bool) (e : N).

Definition is_ws (c : N) : bool :=
  N.eqb c 9 || N.eqb c 10 || N.eqb c 13 || N.eqb c 32.

Definition digit_of (c : N) : option N :=
  if N.leb 48 c && N.leb c 57 then Some (c - 48)%N else None.

Definition hex_of (c : N) : option N :=
  if N.leb 48 c && N.leb c 57 then Some (c - 48)%N
  else if N.leb 65 c && N.leb c 70 then Some (c - 55)%N
  else if N.leb 97 c && N.leb c 102 then Some (c - 87)%N
  else None.

(** What a code unit starts when no token is open. *)
Definition idle_step (c : N) : option (lexstate * list token) :=
  if is_ws c then Some (LIdle, [])
  else if N.eqb c 123 then Some (LIdle, [TLBrace])
  else if N.eqb c 125 then Some (LIdle, [TRBrace])
  else if N.eqb c 91 then Some (LIdle, [TLBrack])
  else if N.eqb c 93 then Some (LIdle, [TRBrack])
  else if N.eqb c 58 then Some (LIdle, [TColon])
  else if N.eqb c 44 then Some (LIdle, [TComma])
  else if N.eqb c 34 then Some (LStr [], [])
  else if N.eqb c 45 then Some (LNum NMinus true 0 0 false 0, [])
  else if N.eqb c 48 then Some (LNum NZero false 0 0 false 0, [])
  else if N.eqb c 116 then Some (LLit (js "rue") TTrue, [])
  else if N.eqb c 102 then Some (LLit (js "alse") TFalse, [])
  else if N.eqb c 110 then Some (LLit (js "ull") TNull, [])
  else match digit_of c with
       | Some d => Some (LNum NInt false d 0 false 0, [])
       | None => None
       end.

Definition number_of (sgn : bool) (m fracs : N) (esgn : bool) (e : N) : number :=
  Number sgn m ((if esgn then - Z.of_N e else Z.of_N e) - Z.of_N fracs)%Z.

(** A number literal ends at the first code unit that cannot continue it;
    that code unit is then read again with no token open. *)
Definition close_number (sgn : bool) (m fracs : N) (esgn : bool) (e : N) (c : N)
  : option (lexstate * list token) :=
  match idle_step c with
  | Some (st, ts) => Some (st, TNumber (number_of sgn m fracs esgn e) :: ts)
  | None => None
  end.

Definition is_e (c : N) : bool := N.eqb c 101 || N.eqb c 69.

Definition num_step (ph : numphase) (sgn : bool) (m fracs : N) (esgn : bool)
  (e : N) (c : N) : option (lexstate * list token) :=
  match ph, digit_of c with
  | NMinus, Some d =>
      if N.eqb d 0 then Some (LNum NZero sgn 0 0 false 0, [])
      else Some (LNum NInt sgn d 0 false 0, [])
  | NMinus, None => None
  | NZero, Some _ => None
  | NInt, Some d => Some (LNum NInt sgn (10 * m + d)%N fracs esgn e, [])
  | (NZero | NInt), None =>
      if N.eqb c 46 then Some (LNum NDot sgn m fracs esgn e, [])
      else if is_e c then Some (LNum NE sgn m fracs esgn e, [])
      else close_number sgn m fracs esgn e c
  | (NDot | NFrac), Some d =>
      Some (LNum NFrac sgn (10 * m + d)%N (fracs + 1)%N esgn e, [])
  | NDot, None => None
  | NFrac, None =>
      if is_e c then Some (LNum NE sgn m fracs esgn e, [])
      else close_number sgn m fracs esgn e c
  | NE, None =>
      if N.eqb c 43 then Some (LNum NESign sgn m fracs false e, [])
      else if N.eqb c 45 then Some (LNum NESign sgn m fracs true e, [])
      else None
  | (NE | NESign | NExp), Some d =>
      Some (LNum NExp sgn m fracs esgn (10 * e + d)%N, [])
  | NESign, None => None
  | NExp, None => close_number sgn m fracs esgn e c
  end.

Definition esc_step (acc : list N) (c : N) : option (lexstate * list token) :=
  if N.eqb c 34 then Some (LStr (34%N :: acc), [])
  else if N.eqb c 92 then Some (LStr (92%N :: acc), [])
  else if N.eqb c 47 then Some (LStr (47%N :: acc), [])
  else if N.eqb c 98 then Some (LStr (8%N :: acc), [])
  else if N.eqb c 102 then Some (LStr (12%N :: acc), [])
  else if N.eqb c 110 then Some (LStr (10%N :: acc), [])
  else if N.eqb c 114 then Some (LStr (13%N :: acc), [])
  else if N.eqb c 116 then Some (LStr (9%N :: acc), [])
  else if N.eqb c 117 then Some (LHex acc 4 0, [])
  else None.

Definition lex_step (st : lexstate) (c : N) : option (lexstate * list token) :=
  match st with
  | LIdle => idle_step c
  | LStr acc =>
      if N.eqb c 34 then Some (LIdle, [TString (rev acc)])
      else if N.eqb c 92 then Some (LEsc acc, [])
      else if N.ltb c 32 then None
      else Some (LStr (c :: acc), [])
  | LEsc acc => esc_step acc c
  | LHex acc todo v =>
      match hex_of c, todo with
      | Some d, S O => Some (LStr ((16 * v + d)%N :: acc), [])
      | Some d, S todo' => Some (LHex acc todo' (16 * v + d)%N, [])
      | _, _ => None
      end
  | LLit rest t =>
      match rest with
      | [x] => if N.eqb c x then Some (LIdle, [t]) else None
      | x :: rest' => if N.eqb c x then Some (LLit rest' t, []) else None
      | [] => None
      end
  | LNum ph sgn m fracs esgn e => num_step ph sgn m fracs esgn e c
  end.

(** At the end of the text only a complete number may still be open. *)
Definition lex_end (st : lexstate) : option (list token) :=
  match st with
  | LIdle => Some []
  | LNum (NZero | NInt | NFrac | NExp) sgn m fracs esgn e =>
      Some [TNumber (number_of sgn m fracs esgn e)]
  | _ => None
  end.

Fixpoint lex (st : lexstate) (cs : jsstring) : option (list token) :=
  match cs with
  | [] => lex_end st
  | c :: cs' =>
      match lex_step st c with
      | Some (st', ts) =>
          match lex st' cs' with
          | Some rest => Some (ts ++ rest)
          | None => None
          end
      | None => None
      end
  end.

(** *** The parser: one token per step, with the open arrays and objects
    on a stack *)

Inductive frame :=
| FArr (done : list json)
| FObj (done : list (jsstring * json)) (key : jsstring).

Inductive pstate :=
| PValue (stk : list frame)
| PArrFirst (stk : list frame)
| PArrNext (done : list json) (stk : list frame)
| PObjFirst (stk : list frame)
| PObjKey (done : list (jsstring * json)) (stk : list frame)
| PColon (done : list (jsstring * json)) (key : jsstring) (stk : list frame)
| PObjNext (done : list (jsstring * json)) (stk : list frame)
| PDone (v : json).

(** A value is complete: hand it to the innermost open array or object. *)
Definition reduce (stk : list frame) (v : json) : pstate :=
  match stk with
  | [] => PDone v
  | FArr done :: stk' => PArrNext (v :: done) stk'
  | FObj done key :: stk' => PObjNext (obj_set done key v) stk'
  end.

Definition value_step (stk : list frame) (t : token) : option pstate :=
  match t with
  | TNull => Some (reduce stk JNull)
  | TTrue => Some (reduce stk (JBool true))
  | TFalse => Some (reduce stk (JBool false))
  | TNumber n => Some (reduce stk (JNum n))
  | TString s => Some (reduce stk (JStr s))
  | TLBrack => Some (PArrFirst stk)
  | TLBrace => Some (PObjFirst stk)
  | _ => None
  end.

Definition parse_step (st : pstate) (t : token) : option pstate :=
  match st, t with
  | PValue stk, _ => value_step stk t
  | PArrFirst stk, TRBrack => Some (reduce stk (JArr []))
  | PArrFirst stk, _ => value_step (FArr [] :: stk) t
  | PArrNext done stk, TComma => Some (PValue (FArr done :: stk))
  | PArrNext done stk, TRBrack => Some (reduce stk (JArr (rev done)))
  | PObjFirst stk, TRBrace => Some (reduce stk (JObj []))
  | PObjFirst stk, TString k => Some (PColon [] k stk)
  | PObjKey done stk, TString k => Some (PColon done k stk)
  | PColon done k stk, TColon => Some (PValue (FObj done k :: stk))
  | PObjNext done stk, TComma => Some (PObjKey done stk)
  | PObjNext done stk, TRBrace => Some (reduce stk (JObj done))
  | _, _ => None
  end.

Fixpoint parse_tokens (st : pstate) (ts : list token) : option json :=
  match ts with
  | [] => match st with PDone v => Some v | _ => None end
  | t :: ts' =>
      match parse_step st t with
      | Some st' => parse_tokens st' ts'
      | None => None
      end
  end.

(** [JSON.parse(text)] without a reviver: [None] stands for the
    [SyntaxError] it throws. *)
Definition JSON_parse (text : jsstring) : option json :=
  match lex LIdle text with
  | Some ts => parse_tokens (PValue []) ts
  | None => None
  end.

(** *** What the controller does with a parsed value *)

(** [ToBoolean] of a number: only zero is falsy ([JSON.parse] yields no
    NaN).  The literal's value is rounded to the nearest double, ties to
    even, so it is zero when the mantissa is zero or when the value is at
    most [2^-1075], half of the smallest positive double. *)
Definition number_is_zero (n : number) : bool :=
  N.eqb (mant n) 0
  || (Z.ltb (expo n) 0
      && Z.leb (Z.of_N (mant n) * 2 ^ 1075) (10 ^ (- expo n)))%Z.

(** [ToBoolean] of a property that was read; [None] is [undefined]. *)
Definition ToBoolean (v : option json) : bool :=
  match v with
  | None => false
  | Some JNull => false
  | Some (JBool b) => b
  | Some (JNum n) => negb (number_is_zero n)
  | Some (JStr s) => match s with [] => false | _ => true end
  | Some (JArr _) => true
  | Some (JObj _) => true
  end.

Definition is_defined (v : option json) : bool :=
  match v with None => false | Some _ => true end.

Inductive exn := SyntaxError | TypeError.

Inductive outcome (A : Type) :=
| Ok (a : A)
| Throw (e : exn).
Arguments Ok {A} a.
Arguments Throw {A} e.

(** [v.k] for a value [v] that [JSON.parse] returned and a name [k] that
    no built-in prototype defines and that is neither an array index nor
    [length] (the controller reads [errorCode], [title] and [message]):
    reading a property of [null] throws, an object answers with its own
    property, and every other value answers [undefined]. *)
Definition get_property (v : json) (k : jsstring) : outcome (option json) :=
  match v with
  | JNull => Throw TypeError
  | JObj m => Ok (obj_get m k)
  | _ => Ok None
  end.

(** ** The host and the collaborators *)

(** Panels and socket bridges are objects of the host and of
    [./panelSocket]; the controller holds references to them. *)
Definition handle := nat.

Inductive ViewColumn := ViewColumn_Active | ViewColumn_Beside | ViewColumn_Nth (n : nat).

Record WebviewOptions := {
  enableCommandUris : bool;
  enableScripts : bool;
  retainContextWhenHidden : bool
}.

(** What the file imports and does not define: types, constants and pure
    functions of the host ([vscode], [path]) and of the sibling modules
    [./common/webviewEvents], [./screencast/view] and [./utils]. *)
Class Collaborators := {
  WebSocketEvent : Type;
  ExtensionContext : Type;
  context_extensionPath : ExtensionContext -> jsstring;
  Uri : Type;
  context_extensionUri : ExtensionContext -> Uri;
  Uri_file : jsstring -> Uri;
  Uri_joinPath : Uri -> list jsstring -> Uri;
  path_join : list jsstring -> jsstring;
  (* panel.webview.asWebviewUri and panel.webview.cspSource of a panel *)
  webview_asWebviewUri : handle -> Uri -> Uri;
  webview_cspSource : handle -> jsstring;
  (* panel.visible of a panel that was just created *)
  created_visible : bool;
  (* new ScreencastView(csp, css, codicons, inspector).render() *)
  ScreencastView_render : jsstring -> Uri -> Uri -> Uri -> jsstring;
  TelemetryReporter : Type;
  createTelemetryReporter : ExtensionContext -> TelemetryReporter;
  SETTINGS_STORE_NAME : jsstring;
  SETTINGS_SCREENCAST_WEBVIEW_NAME : jsstring
}.

Section Controller.
Context `{Collaborators}.

(** The fields of a [ScreencastPanel] object; all are set once, by the
    constructor. *)
Record ScreencastPanel := {
  context : ExtensionContext;
  extensionPath : jsstring;
  panel : handle;
  targetUrl : jsstring;
  panelSocket : handle;
  telemetryReporter : TelemetryReporter
}.

(** The state of a host panel that the controller reads or changes. *)
Record WebviewPanel := {
  released : bool;      (* panel.dispose() was called, or the user closed it *)
  visible : bool;       (* panel.visible *)
  html : jsstring       (* panel.webview.html *)
}.

(** The state of a socket bridge. *)
Record PanelSocket := {
  socket_url : jsstring;
  disposed : bool       (* panelSocket.dispose() was called *)
}.

Record world := {
  instance : option ScreencastPanel;   (* the static ScreencastPanel.instance *)
  objects : list ScreencastPanel;      (* every controller constructed so far *)
  panels : list WebviewPanel;          (* host panels, by handle *)
  sockets : list PanelSocket           (* socket bridges, by handle *)
}.

Definition initial : world :=
  {| instance := None; objects := []; panels := []; sockets := [] |}.

(** A property of an object literal. *)
Inductive jsvalue :=
| VUndefined
| VString (s : jsstring)
| VEvent (e : WebSocketEvent).

Definition jsobject := list (jsstring * jsvalue).

Definition is_undefined (v : jsvalue) : bool :=
  match v with VUndefined => true | _ => false end.

(** The calls the controller makes to the host and to its collaborators. *)
Inductive effect :=
| ECreateWebviewPanel (p : handle) (viewType title : jsstring)
    (column : ViewColumn) (options : WebviewOptions)
| ECreateTelemetryReporter (c : ExtensionContext)
| ENewPanelSocket (s : handle) (url : jsstring)
| ESocketOn (s : handle) (name : jsstring)
| EOnDidDispose (p : handle)
| EOnDidChangeViewState (p : handle)
| EOnDidReceiveMessage (p : handle)
| EPanelDispose (p : handle)
| ESocketDispose (s : handle)
| ESetHtml (p : handle) (h : jsstring)
| EPostMessage (p : handle) (msg : jsobject)
| EOnMessageFromWebview (s : handle) (message : jsstring)
| EAsWebviewUri (p : handle) (u : Uri)
| ENewScreencastView (csp : jsstring) (css codicons inspector : Uri)
| EShowErrorDialog (errorObj : json)
| ESendTelemetryErrorEvent (r : TelemetryReporter) (name : jsstring)
    (properties : list (jsstring * jsstring)).

(** *** Computations: state, an effect log and exceptions *)

Record run (A : Type) := Run {
  result : outcome A;
  state : world;
  effects : list effect
}.
Arguments Run {A} result state effects.
Arguments result {A} r.
Arguments state {A} r.
Arguments effects {A} r.

Definition M (A : Type) := world -> run A.

Definition ret {A} (a : A) : M A := fun w => Run (Ok a) w [].

Definition bind {A B} (m : M A) (k : A -> M B) : M B := fun w =>
  match m w with
  | Run (Ok a) w1 l1 =>
      let r := k a w1 in Run (result r) (state r) (l1 ++ effects r)
  | Run (Throw e) w1 l1 => Run (Throw e) w1 l1
  end.

Definition throw {A} (e : exn) : M A := fun w => Run (Throw e) w [].

Definition emit (e : effect) : M unit := fun w => Run (Ok tt) w [e].

Definition lift {A} (o : outcome A) : M A := fun w => Run o w [].

Notation "x <- m ;; k" := (bind m (fun x => k))
  (at level 20, m at level 99, k at level 200, only parsing).
Notation "m ;; k" := (bind m (fun _ => k))
  (at level 100, k at level 200, right associativity, only parsing).

(** *** The static slot *)

Definition get_instance : M (option ScreencastPanel) := fun w =>
  Run (Ok (instance w)) w [].

Definition set_instance (i : option ScreencastPanel) : M unit := fun w =>
  Run (Ok tt)
    {| instance := i; objects := objects w;
       panels := panels w; sockets := sockets w |} [].

(** *** The host's panel *)

Definition with_panels (f : list WebviewPanel -> list WebviewPanel) (w : world)
  : world :=
  {| instance := instance w; objects := objects w;
     panels := f (panels w); sockets := sockets w |}.

Definition with_sockets (f : list PanelSocket -> list PanelSocket) (w : world)
  : world :=
  {| instance := instance w; objects := objects w;
     panels := panels w; sockets := f (sockets w) |}.

Definition release (x : WebviewPanel) : WebviewPanel :=
  {| released := true; visible := visible x; html := html x |}.

Definition show (v : bool) (x : WebviewPanel) : WebviewPanel :=
  {| released := released x; visible := v; html := html x |}.

Definition assign_html (h : jsstring) (x : WebviewPanel) : WebviewPanel :=
  {| released := released x; visible := visible x; html := h |}.

(** [vscode.window.createWebviewPanel]: a new panel, not yet released,
    with an empty document. *)
Definition createWebviewPanel (viewType title : jsstring) (column : ViewColumn)
  (options : WebviewOptions) : M handle := fun w =>
  let p := length (panels w) in
  Run (Ok p)
    (with_panels
       (fun l => l ++ [{| released := false; visible := created_visible;
                          html := [] |}]) w)
    [ECreateWebviewPanel p viewType title column options].

(** [panel.dispose()]: releasing a panel twice leaves it released. *)
Definition panel_dispose (p : handle) : M unit := fun w =>
  Run (Ok tt) (with_panels (alter release p) w) [EPanelDispose p].

(** [panel.visible] *)
Definition is_visible (w : world) (p : handle) : bool :=
  match panels w !! p with Some x => visible x | None => false end.

Definition panel_visible (p : handle) : M bool := fun w =>
  Run (Ok (is_visible w p)) w [].

(** [panel.webview.html = h] *)
Definition webview_set_html (p : handle) (h : jsstring) : M unit := fun w =>
  Run (Ok tt) (with_panels (alter (assign_html h) p) w) [ESetHtml p h].

(** [panel.webview.postMessage(msg)] *)
Definition webview_postMessage (p : handle) (msg : jsobject) : M unit :=
  emit (EPostMessage p msg).

(** [panel.webview.asWebviewUri(u)] *)
Definition asWebviewUri (p : handle) (u : Uri) : M Uri :=
  emit (EAsWebviewUri p u) ;; ret (webview_asWebviewUri p u).

(** *** The socket bridge *)

Definition close_socket (x : PanelSocket) : PanelSocket :=
  {| socket_url := socket_url x; disposed := true |}.

(** [new PanelSocket(url, callback)] *)
Definition new_PanelSocket (url : jsstring) : M handle := fun w =>
  let s := length (sockets w) in
  Run (Ok s)
    (with_sockets (fun l => l ++ [{| socket_url := url; disposed := false |}]) w)
    [ENewPanelSocket s url].

(** [panelSocket.on(name, listener)] *)
Definition socket_on (s : handle) (name : jsstring) : M unit :=
  emit (ESocketOn s name).

(** [panelSocket.dispose()] *)
Definition socket_dispose (s : handle) : M unit := fun w =>
  Run (Ok tt) (with_sockets (alter close_socket s) w) [ESocketDispose s].

(** [panelSocket.onMessageFromWebview(message)] *)
Definition socket_onMessageFromWebview (s : handle) (message : jsstring)
  : M unit :=
  emit (EOnMessageFromWebview s message).

(** *** The view renderer *)

Record ScreencastView := {
  view_csp : jsstring;
  view_css : Uri;
  view_codicons : Uri;
  view_inspector : Uri
}.

Definition new_ScreencastView (csp : jsstring) (css codicons inspector : Uri)
  : M ScreencastView :=
  emit (ENewScreencastView csp css codicons inspector) ;;
  ret {| view_csp := csp; view_css := css; view_codicons := codicons;
         view_inspector := inspector |}.

Definition render (view : ScreencastView) : jsstring :=
  ScreencastView_render (view_csp view) (view_css view) (view_codicons view)
    (view_inspector view).

(** *** The error reporter and the telemetry reporter *)

Definition showErrorDialog (errorObj : json) : M unit :=
  emit (EShowErrorDialog errorObj).

Definition sendTelemetryErrorEvent (r : TelemetryReporter) (name : jsstring)
  (properties : list (jsstring * jsstring)) : M unit :=
  emit (ESendTelemetryErrorEvent r name properties).

(** Modelled from the spec: [encodeMessageForChannel] of
    [./common/webviewEvents] is not among the sources.  The spec has
    [postToWebview] wrap its pair into the fixed wire envelope
    [{channel: "websocket", event, message?}] and post it once, the
    [message] left out when it is absent: the envelope is the channel
    followed by the defined properties of the arguments. *)
Definition encodeMessageForChannel (postMessageCallback : jsobject -> M unit)
  (type : jsstring) (args : jsobject) : M unit :=
  postMessageCallback
    ((js "channel", VString type)
       :: List.filter (fun kv => negb (is_undefined (snd kv))) args).

(** *** ScreencastPanel *)

(** The constructor, lines 25-56.  The five listeners it registers are
    the cases of [handler] below. *)
Definition new_ScreencastPanel (panel : handle) (context : ExtensionContext)
  (targetUrl : jsstring) : M ScreencastPanel :=
  emit (ECreateTelemetryReporter context) ;;
  s <- new_PanelSocket targetUrl ;;
  let this :=
    {| context := context;
       extensionPath := context_extensionPath context;
       panel := panel;
       targetUrl := targetUrl;
       panelSocket := s;
       telemetryReporter := createTelemetryReporter context |} in
  socket_on s (js "close") ;;
  socket_on s (js "reportError") ;;
  emit (EOnDidDispose panel) ;;
  emit (EOnDidChangeViewState panel) ;;
  emit (EOnDidReceiveMessage panel) ;;
  (fun w =>
     Run (Ok this)
       {| instance := instance w; objects := objects w ++ [this];
          panels := panels w; sockets := sockets w |} []).

Definition dispose (this : ScreencastPanel) : M unit :=
  set_instance None ;;
  panel_dispose (panel this) ;;
  socket_dispose (panelSocket this).

Definition onSocketClose (this : ScreencastPanel) : M unit :=
  dispose this.

Definition getHtmlForWebview (this : ScreencastPanel) : M jsstring :=
  let inspectorPath :=
    Uri_file (path_join [extensionPath this; js "out/screencast";
                         js "screencast.bundle.js"]) in
  inspectorUri <- asWebviewUri (panel this) inspectorPath ;;
  codiconsUri <- asWebviewUri (panel this)
    (Uri_joinPath (context_extensionUri (context this))
       [js "node_modules"; js "@vscode/codicons"; js "dist";
        js "codicon.css"]) ;;
  cssPath <- asWebviewUri (panel this)
    (Uri_joinPath (context_extensionUri (context this))
       [js "out/screencast"; js "view.css"]) ;;
  view <- new_ScreencastView (webview_cspSource (panel this)) cssPath
    codiconsUri inspectorUri ;;
  ret (render view).

Definition update (this : ScreencastPanel) : M unit :=
  h <- getHtmlForWebview this ;;
  webview_set_html (panel this) h.

Definition postToWebview (this : ScreencastPanel) (e : WebSocketEvent)
  (message : option jsstring) : M unit :=
  encodeMessageForChannel (fun msg => webview_postMessage (panel this) msg)
    (js "websocket")
    [(js "event", VEvent e);
     (js "message",
      match message with Some m => VString m | None => VUndefined end)].

Definition JSON_parse_or_throw (msg : jsstring) : M json :=
  match JSON_parse msg with
  | Some v => ret v
  | None => throw SyntaxError
  end.

(** The test of line 79; [&&] reads its right operand only when the left
    one is truthy. *)
Definition is_error_event (errorObj : json) : M bool :=
  errorCode <- lift (get_property errorObj (js "errorCode")) ;;
  if is_defined errorCode then
    title <- lift (get_property errorObj (js "title")) ;;
    if ToBoolean title then
      message <- lift (get_property errorObj (js "message")) ;;
      ret (ToBoolean message)
    else ret false
  else ret false.

Definition reportError (this : ScreencastPanel) (msg : jsstring) : M unit :=
  errorObj <- JSON_parse_or_throw msg ;;
  c <- is_error_event errorObj ;;
  if c then showErrorDialog errorObj
  else sendTelemetryErrorEvent (telemetryReporter this)
         (js "view/screencast/error") [(js "message", msg)].

Definition createOrShow (context : ExtensionContext) (targetUrl : jsstring)
  : M unit :=
  let column := ViewColumn_Beside in
  i <- get_instance ;;
  match i with
  | Some this => dispose this
  | None =>
      panel <- createWebviewPanel SETTINGS_STORE_NAME
        SETTINGS_SCREENCAST_WEBVIEW_NAME column
        {| enableCommandUris := true; enableScripts := true;
           retainContextWhenHidden := true |} ;;
      this <- new_ScreencastPanel panel context targetUrl ;;
      set_instance (Some this)
  end.

(** *** The five subscriptions *)

Inductive event :=
| SocketClose                                  (* panelSocket 'close' *)
| SocketReportError (msg : jsstring)           (* panelSocket 'reportError' *)
| PanelDidDispose                              (* panel.onDidDispose *)
| PanelDidChangeViewState                      (* panel.onDidChangeViewState *)
| WebviewDidReceiveMessage (message : jsstring).

(** The listener registered for each, lines 36-55. *)
Definition handler (this : ScreencastPanel) (ev : event) : M unit :=
  match ev with
  | SocketClose => onSocketClose this
  | SocketReportError msg => reportError this msg
  | PanelDidDispose =>
      dispose this ;;
      socket_dispose (panelSocket this)
  | PanelDidChangeViewState =>
      v <- panel_visible (panel this) ;;
      if v then update this else ret tt
  | WebviewDidReceiveMessage message =>
      socket_onMessageFromWebview (panelSocket this) message
  end.

End Controller.

Arguments Run {_ A} result state effects.
Arguments result {_ A} r.
Arguments state {_ A} r.
Arguments effects {_ A} r.

Notation "x <- m ;; k" := (bind m (fun x => k))
  (at level 20, m at level 99, k at level 200, only parsing).
Notation "m ;; k" := (bind m (fun _ => k))
  (at level 100, k at level 200, right associativity, only parsing).

(** ** The life of controllers *)

Section Lifecycle.
Context `{Collaborators}.

Definition panel_live (w : world) (p : handle) : bool :=
  match panels w !! p with Some x => negb (released x) | None => false end.

Definition socket_live (w : world) (s : handle) : bool :=
  match sockets w !! s with Some x => negb (disposed x) | None => false end.

(** A controller is live while it holds a panel or a socket bridge that
    was not released. *)
Definition live (w : world) (i : ScreencastPanel) : bool :=
  panel_live w (panel i) || socket_live w (panelSocket i).

Definition live_instances (w : world) : list ScreencastPanel :=
  List.filter (live w) (objects w).

(** What happens to a live controller: the host and the socket bridge
    change their own state and call the listener, or the socket bridge
    calls the callback it was constructed with. *)
Inductive occurrence :=
| UserClosesPanel
| ViewStateChanges (v : bool)
| WebviewSends (message : jsstring)
| SocketCloses
| SocketReports (msg : jsstring)
| SocketForwards (e : WebSocketEvent) (message : option jsstring).

Definition host_release (p : handle) : M unit := fun w =>
  Run (Ok tt) (with_panels (alter release p) w) [].

Definition host_show (p : handle) (v : bool) : M unit := fun w =>
  Run (Ok tt) (with_panels (alter (show v) p) w) [].

Definition occur (this : ScreencastPanel) (o : occurrence) : M unit :=
  match o with
  | UserClosesPanel =>
      host_release (panel this) ;; handler this PanelDidDispose
  | ViewStateChanges v =>
      host_show (panel this) v ;; handler this PanelDidChangeViewState
  | WebviewSends message => handler this (WebviewDidReceiveMessage message)
  | SocketCloses => handler this SocketClose
  | SocketReports msg => handler this (SocketReportError msg)
  | SocketForwards e message => postToWebview this e message
  end.

(** One operation of the controller.  The host and the socket bridge call
    the listeners of live controllers only: a released panel and a
    disposed socket bridge fire nothing. *)
Inductive step : world -> world -> Prop :=
| step_createOrShow (context : ExtensionContext) (targetUrl : jsstring) w :
    step w (state (createOrShow context targetUrl w))
| step_dispose this w :
    this ∈ objects w -> live w this = true ->
    step w (state (dispose this w))
| step_occur this o w :
    this ∈ objects w -> live w this = true ->
    step w (state (occur this o w)).

Inductive reachable : world -> Prop :=
| reachable_initial : reachable initial
| reachable_step w w' : reachable w -> step w w' -> reachable w'.

(** Zero or one live controller, and it is the one in the static slot. *)
Definition sole_instance (w : world) : Prop :=
  live_instances w = match instance w with Some i => [i] | None => [] end.

(** The invariant behind it: every controller's handles exist, a live
    controller is in the slot, the controller in the slot holds both its
    panel and its socket bridge, and no controller was constructed twice. *)
Record Inv (w : world) : Prop := {
  inv_range : forall i, i ∈ objects w ->
    panel i < length (panels w) /\ panelSocket i < length (sockets w);
  inv_live_slot : forall i, i ∈ objects w -> live w i = true ->
    instance w = Some i;
  inv_slot_live : forall i, instance w = Some i ->
    i ∈ objects w /\ panel_live w (panel i) = true
    /\ socket_live w (panelSocket i) = true;
  inv_nodup : NoDup (objects w)
}.

(** The controller [createOrShow] constructs when the slot is empty, and
    the calls it makes for that. *)
Definition next_instance (context : ExtensionContext) (targetUrl : jsstring)
  (w : world) : ScreencastPanel :=
  {| context := context;
     extensionPath := context_extensionPath context;
     panel := length (panels w);
     targetUrl := targetUrl;
     panelSocket := length (sockets w);
     telemetryReporter := createTelemetryReporter context |}.

Definition construction (context : ExtensionContext) (targetUrl : jsstring)
  (w : world) : list effect :=
  let p := length (panels w) in
  let s := length (sockets w) in
  [ECreateWebviewPanel p SETTINGS_STORE_NAME SETTINGS_SCREENCAST_WEBVIEW_NAME
     ViewColumn_Beside
     {| enableCommandUris := true; enableScripts := true;
        retainContextWhenHidden := true |};
   ECreateTelemetryReporter context;
   ENewPanelSocket s targetUrl;
   ESocketOn s (js "close");
   ESocketOn s (js "reportError");
   EOnDidDispose p;
   EOnDidChangeViewState p;
   EOnDidReceiveMessage p].

(** The four ways a controller is torn down. *)
Inductive trigger :=
| UserClose
| SocketClosed
| ExplicitDispose
| Superseded (context : ExtensionContext) (targetUrl : jsstring).

Definition teardown (this : ScreencastPanel) (t : trigger) : M unit :=
  match t with
  | UserClose => occur this UserClosesPanel
  | SocketClosed => occur this SocketCloses
  | ExplicitDispose => dispose this
  | Superseded context targetUrl => createOrShow context targetUrl
  end.

(** *** Reading the effect log *)

Definition is_render (e : effect) : bool :=
  match e with ESetHtml _ _ => true | _ => false end.

(** The HTML assignments of a log. *)
Definition renders (l : list effect) : list effect := List.filter is_render l.

(** The URIs a log asks the webview to resolve. *)
Fixpoint resolved (l : list effect) : list Uri :=
  match l with
  | [] => []
  | EAsWebviewUri _ u :: l' => u :: resolved l'
  | _ :: l' => resolved l'
  end.

(** The views a log constructs. *)
Fixpoint views (l : list effect) : list ScreencastView :=
  match l with
  | [] => []
  | ENewScreencastView csp css codicons inspector :: l' =>
      {| view_csp := csp; view_css := css; view_codicons := codicons;
         view_inspector := inspector |} :: views l'
  | _ :: l' => views l'
  end.

(** The envelopes a log posts. *)
Fixpoint posted (l : list effect) : list (handle * jsobject) :=
  match l with
  | [] => []
  | EPostMessage p msg :: l' => (p, msg) :: posted l'
  | _ :: l' => posted l'
  end.

Fixpoint field (o : jsobject) (k : jsstring) : option jsvalue :=
  match o with
  | [] => None
  | (k', v) :: o' => if decide (k' = k) then Some v else field o' k
  end.

(** The structured error of line 79, read off the parsed value. *)
Definition own (v : json) (k : jsstring) : option json :=
  match v with JObj m => obj_get m k | _ => None end.

Definition structured_error (v : json) : bool :=
  is_defined (own v (js "errorCode"))
  && ToBoolean (own v (js "title"))
  && ToBoolean (own v (js "message")).

End Lifecycle.

(** ** A sample host, to run the controller on *)

Definition sample_host : Collaborators := {|
  WebSocketEvent := jsstring;
  ExtensionContext := jsstring;
  context_extensionPath := fun c => c;
  Uri := jsstring;
  context_extensionUri := fun c => js "file://" ++ c;
  Uri_file := fun p => js "file://" ++ p;
  Uri_joinPath := fun u l => foldl (fun a s => a ++ js "/" ++ s) u l;
  path_join := fun l =>
    match l with
    | [] => js "."
    | a :: l' => foldl (fun a s => a ++ js "/" ++ s) a l'
    end;
  webview_asWebviewUri := fun _ u => js "webview:" ++ u;
  webview_cspSource := fun _ => js "webview:";
  created_visible := true;
  ScreencastView_render := fun csp css codicons inspector =>
    csp ++ js " " ++ css ++ js " " ++ codicons ++ js " " ++ inspector;
  TelemetryReporter := unit;
  createTelemetryReporter := fun _ => tt;
  SETTINGS_STORE_NAME := js "vscode-edge-devtools";
  SETTINGS_SCREENCAST_WEBVIEW_NAME := js "Browser"
|}.

Definition sample_context : @ExtensionContext sample_host := js "/ext".

Definition sample_url : jsstring := js "ws://localhost:9222/devtools/page/1".

(** The world after the first [createOrShow], and its controller. *)
Definition shown : @world sample_host :=
  state (@createOrShow sample_host sample_context sample_url initial).

Definition first : @ScreencastPanel sample_host :=
  {| context := sample_context; extensionPath := js "/ext"; panel := 0;
     targetUrl := sample_url; panelSocket := 0; telemetryReporter := tt |}.

(** The same world once the host has hidden the panel. *)
Definition hidden : @world sample_host :=
  state (@host_show sample_host 0 false shown).

(** The same world once the controller was disposed. *)
Definition torn : @world sample_host :=
  state (@dispose sample_host first shown).

Definition second_url : jsstring := js "ws://localhost:9222/devtools/page/2".

(** ** Histories of controllers *)

Section Histories.
Context `{Collaborators}.

Definition occupied (w : world) : bool :=
  match instance w with Some _ => true | None => false end.

(** A run of [createOrShow] calls, one after the other. *)
Definition createOrShow_all (l : list (ExtensionContext * jsstring)) : M unit :=
  foldr (fun cu k => createOrShow (fst cu) (snd cu) ;; k) (ret tt) l.

(** Panels, socket bridges and controllers are created together, by the
    constructing branch of [createOrShow]: the controller constructed
    [k]-th holds the [k]-th panel and the [k]-th socket bridge, its fields
    are the ones the constructor computes, and its socket bridge was opened
    on its target URL. *)
Definition well_formed (w : world) : Prop :=
  length (panels w) = length (objects w)
  /\ length (sockets w) = length (objects w)
  /\ forall k i, objects w !! k = Some i ->
       panel i = k /\ panelSocket i = k
       /\ extensionPath i = context_extensionPath (context i)
       /\ telemetryReporter i = createTelemetryReporter (context i)
       /\ exists s, sockets w !! k = Some s /\ socket_url s = targetUrl i.

(** The one call [reportError] may make. *)
Definition is_report (this : ScreencastPanel) (msg : jsstring) (e : effect)
  : Prop :=
  (exists errorObj, JSON_parse msg = Some errorObj
                    /\ e = EShowErrorDialog errorObj)
  \/ e = ESendTelemetryErrorEvent (telemetryReporter this)
           (js "view/screencast/error") [(js "message", msg)].

End Histories.

(** The sample host with a second controller in the slot, the first one
    disposed. *)
Definition reshown : @world sample_host :=
  state (@createOrShow sample_host sample_context second_url torn).

Definition second : @ScreencastPanel sample_host :=
  {| context := sample_context; extensionPath := js "/ext"; panel := 1;
     targetUrl := second_url; panelSocket := 1; telemetryReporter := tt |}.

(** ** Properties *)

Section Properties.
Context `{Collaborators}.

(** *** Releasing twice *)

Lemma alter_release_twice (p : handle) (l : list WebviewPanel) :
  alter release p (alter release p l) = alter release p l.
Proof.
  revert p. induction l as [|x l IH]; intros [|p]; simpl; try reflexivity.
  f_equal. apply IH.
Qed.

Lemma alter_close_socket_twice (s : handle) (l : list PanelSocket) :
  alter close_socket s (alter close_socket s l) = alter close_socket s l.
Proof.
  revert s. induction l as [|x l IH]; intros [|s]; simpl; try reflexivity.
  f_equal. apply IH.
Qed.

(** What [dispose] leaves behind, and what it calls. *)
Lemma dispose_run (this : ScreencastPanel) (w : world) :
  dispose this w =
  Run (Ok tt)
    {| instance := None; objects := objects w;
       panels := alter release (panel this) (panels w);
       sockets := alter close_socket (panelSocket this) (sockets w) |}
    [EPanelDispose (panel this); ESocketDispose (panelSocket this)].
Proof. reflexivity. Qed.

(** The two branches of [createOrShow]. *)
Lemma createOrShow_fresh_run (context : ExtensionContext) (targetUrl : jsstring)
  (w : world) :
  instance w = None ->
  createOrShow context targetUrl w
  = Run (Ok tt)
      {| instance := Some (next_instance context targetUrl w);
         objects := objects w ++ [next_instance context targetUrl w];
         panels := panels w ++ [{| released := false;
                                   visible := created_visible; html := [] |}];
         sockets := sockets w ++ [{| socket_url := targetUrl;
                                     disposed := false |}] |}
      (construction context targetUrl w).
Proof.
  intros Hslot. unfold createOrShow, bind, get_instance. simpl.
  rewrite Hslot. reflexivity.
Qed.

Lemma createOrShow_existing_run (context : ExtensionContext)
  (targetUrl : jsstring) (w : world) (this : ScreencastPanel) :
  instance w = Some this ->
  createOrShow context targetUrl w = dispose this w.
Proof.
  intros Hslot. unfold createOrShow, bind, get_instance. simpl.
  rewrite Hslot. rewrite dispose_run. reflexivity.
Qed.

(** C2: with an instance in the slot, [createOrShow] is that instance's
    [dispose]: the slot is left empty, nothing is constructed (no new
    controller, panel or socket bridge; the only calls are the two
    releases), and the outcome is the same whatever the context and the
    target URL are. *)
Theorem createOrShow_existing_only_disposes (w : world) (this : ScreencastPanel)
  (context : ExtensionContext) (targetUrl : jsstring) :
  instance w = Some this ->
  createOrShow context targetUrl w = dispose this w
  /\ instance (state (createOrShow context targetUrl w)) = None
  /\ objects (state (createOrShow context targetUrl w)) = objects w
  /\ length (panels (state (createOrShow context targetUrl w)))
     = length (panels w)
  /\ length (sockets (state (createOrShow context targetUrl w)))
     = length (sockets w)
  /\ effects (createOrShow context targetUrl w)
     = [EPanelDispose (panel this); ESocketDispose (panelSocket this)]
  /\ forall context' targetUrl',
       createOrShow context' targetUrl' w = createOrShow context targetUrl w.
Proof.
  intros Hslot.
  assert (Heq : forall c u, createOrShow c u w = dispose this w)
    by (intros c u; apply createOrShow_existing_run, Hslot).
  rewrite Heq, dispose_run. simpl.
  repeat split.
  - apply length_alter.
  - apply length_alter.
  - intros c u. rewrite Heq. apply dispose_run.
Qed.

(** C7: [dispose(); dispose()] leaves the state that one [dispose()]
    leaves: the slot is empty, the panel and the socket bridge are
    released.  (The second call does call the two releases again.) *)
Theorem dispose_twice_same_state (this : ScreencastPanel) (w : world) :
  state ((dispose this ;; dispose this) w) = state (dispose this w).
Proof.
  unfold bind. rewrite !dispose_run. simpl.
  rewrite alter_release_twice, alter_close_socket_twice. reflexivity.
Qed.

Lemma dispose_twice_calls_again (this : ScreencastPanel) (w : world) :
  effects ((dispose this ;; dispose this) w)
  = effects (dispose this w) ++ effects (dispose this w).
Proof. reflexivity. Qed.

(** C5: a text that [JSON.parse] rejects makes [reportError] throw the
    parser's [SyntaxError]; nothing catches it, and neither the error
    dialog nor the telemetry reporter is called. *)
Theorem reportError_malformed_throws (this : ScreencastPanel) (msg : jsstring)
  (w : world) :
  JSON_parse msg = None ->
  reportError this msg w = Run (Throw SyntaxError) w [].
Proof.
  intros Hparse. unfold reportError, bind, JSON_parse_or_throw.
  rewrite Hparse. reflexivity.
Qed.

(** C8: [postToWebview(e, message)] posts one envelope to the panel's
    webview, and nothing else: its channel is [websocket], its event and
    message are the ones passed, and it has no [message] property at all
    when the message is absent. *)
Theorem postToWebview_envelope (this : ScreencastPanel) (e : WebSocketEvent)
  (message : option jsstring) (w : world) :
  exists envelope : jsobject,
    postToWebview this e message w
    = Run (Ok tt) w [EPostMessage (panel this) envelope]
    /\ field envelope (js "channel") = Some (VString (js "websocket"))
    /\ field envelope (js "event") = Some (VEvent e)
    /\ field envelope (js "message") = option_map VString message
    /\ map fst envelope
       = [js "channel"; js "event"]
         ++ match message with Some _ => [js "message"] | None => [] end.
Proof.
  destruct message as [m|]; eexists; (split; [reflexivity|]);
    repeat split; reflexivity.
Qed.

(** C9: [getHtmlForWebview] asks the webview for three URIs, those of the
    bundled script, of the icon-font stylesheet and of the stylesheet;
    it constructs one view, from the panel's CSP source as it is and the
    three resolved URIs; and it returns what that view renders. *)
Theorem getHtmlForWebview_resources (this : ScreencastPanel) (w : world) :
  let r := getHtmlForWebview this w in
  let p := panel this in
  let script :=
    Uri_file (path_join [extensionPath this; js "out/screencast";
                         js "screencast.bundle.js"]) in
  let codicons :=
    Uri_joinPath (context_extensionUri (context this))
      [js "node_modules"; js "@vscode/codicons"; js "dist"; js "codicon.css"] in
  let css :=
    Uri_joinPath (context_extensionUri (context this))
      [js "out/screencast"; js "view.css"] in
  resolved (effects r) = [script; codicons; css]
  /\ views (effects r)
     = [{| view_csp := webview_cspSource p;
           view_css := webview_asWebviewUri p css;
           view_codicons := webview_asWebviewUri p codicons;
           view_inspector := webview_asWebviewUri p script |}]
  /\ result r
     = Ok (ScreencastView_render (webview_cspSource p)
             (webview_asWebviewUri p css) (webview_asWebviewUri p codicons)
             (webview_asWebviewUri p script))
  /\ length (effects r) = 4
  /\ state r = w.
Proof. repeat split. Qed.

(** *** Liveness under the changes the operations make *)

Lemma panel_live_release (w : world) (p q : handle) :
  panel_live (with_panels (alter release p) w) q
  = if decide (p = q) then false else panel_live w q.
Proof.
  unfold panel_live, with_panels. cbn [panels].
  rewrite list_lookup_alter. repeat case_decide; subst; try congruence;
    try reflexivity.
  destruct (_ !! _); reflexivity.
Qed.

Lemma socket_live_close (w : world) (s q : handle) :
  socket_live (with_sockets (alter close_socket s) w) q
  = if decide (s = q) then false else socket_live w q.
Proof.
  unfold socket_live, with_sockets. cbn [sockets].
  rewrite list_lookup_alter. repeat case_decide; subst; try congruence;
    try reflexivity.
  destruct (_ !! _); reflexivity.
Qed.

Lemma panel_live_alter_kept (f : WebviewPanel -> WebviewPanel) (w : world)
  (p q : handle) :
  (forall x, released (f x) = released x) ->
  panel_live (with_panels (alter f p) w) q = panel_live w q.
Proof.
  intros Hf. unfold panel_live, with_panels. cbn [panels].
  rewrite list_lookup_alter. case_decide; subst; [|reflexivity].
  destruct (_ !! _); simpl; [rewrite Hf|]; reflexivity.
Qed.

(** *** Filtering a list with one hit, or none *)

Lemma filter_none {A} (f : A -> bool) (l : list A) :
  (forall x, x ∈ l -> f x = false) -> List.filter f l = [].
Proof.
  induction l as [|a l IH]; intros Hf; simpl; [reflexivity|].
  rewrite (Hf a) by (apply elem_of_cons; auto).
  apply IH. intros x Hx. apply Hf, elem_of_cons. auto.
Qed.

Lemma filter_one {A} (f : A -> bool) (l : list A) (a : A) :
  NoDup l -> a ∈ l -> f a = true ->
  (forall x, x ∈ l -> f x = true -> x = a) ->
  List.filter f l = [a].
Proof.
  induction l as [|b l IH]; intros Hnd Ha Hfa Hu.
  - apply elem_of_nil in Ha. contradiction.
  - apply NoDup_cons in Hnd as [Hb Hnd]. simpl.
    apply elem_of_cons in Ha as [->|Ha].
    + rewrite Hfa. f_equal. apply filter_none. intros x Hx.
      destruct (f x) eqn:E; [|reflexivity].
      assert (x = b) as -> by (apply Hu; [apply elem_of_cons; auto | exact E]).
      contradiction.
    + destruct (f b) eqn:E.
      * assert (b = a) as -> by (apply Hu; [apply elem_of_cons; auto | exact E]).
        contradiction.
      * apply IH; auto. intros x Hx. apply Hu, elem_of_cons. auto.
Qed.

Lemma Inv_sole_instance (w : world) : Inv w -> sole_instance w.
Proof.
  intros [Hr Hls Hsl Hnd]. unfold sole_instance, live_instances.
  destruct (instance w) as [i|] eqn:Hi.
  - destruct (Hsl i eq_refl) as (Hin & Hp & Hs).
    apply filter_one; auto.
    + unfold live. rewrite Hp. reflexivity.
    + intros x Hx Hlx. specialize (Hls x Hx Hlx). congruence.
  - apply filter_none. intros x Hx. destruct (live w x) eqn:E; [|reflexivity].
    specialize (Hls x Hx E). discriminate.
Qed.

Lemma Inv_initial : Inv initial.
Proof.
  split; simpl.
  - intros i Hi. apply elem_of_nil in Hi. contradiction.
  - intros i Hi. apply elem_of_nil in Hi. contradiction.
  - discriminate.
  - apply NoDup_nil_2.
Qed.

(** Releasing the panel and the socket bridge of a live controller and
    clearing the slot. *)
Lemma Inv_released (w : world) (this : ScreencastPanel) :
  Inv w -> this ∈ objects w -> live w this = true ->
  Inv {| instance := None; objects := objects w;
         panels := alter release (panel this) (panels w);
         sockets := alter close_socket (panelSocket this) (sockets w) |}.
Proof.
  intros [Hr Hls Hsl Hnd] Hin Hlive.
  pose proof (Hls this Hin Hlive) as Hslot.
  split; simpl.
  - intros i Hi. rewrite !length_alter. apply Hr, Hi.
  - intros i Hi Hl. exfalso.
    unfold live in Hl.
    change (panel_live (with_panels (alter release (panel this))
              (with_sockets (alter close_socket (panelSocket this))
                 {| instance := None; objects := objects w;
                    panels := panels w; sockets := sockets w |})) (panel i)
            || socket_live (with_sockets (alter close_socket (panelSocket this))
                 {| instance := None; objects := objects w;
                    panels := panels w; sockets := sockets w |})
                 (panelSocket i) = true) in Hl.
    rewrite panel_live_release, socket_live_close in Hl.
    assert (Hli : live w i = true).
    { unfold live. apply orb_true_iff in Hl as [Hl|Hl].
      - destruct (decide (panel this = panel i)); [discriminate|].
        apply orb_true_iff. left. exact Hl.
      - destruct (decide (panelSocket this = panelSocket i)); [discriminate|].
        apply orb_true_iff. right. exact Hl. }
    assert (i = this) as -> by (specialize (Hls i Hi Hli); congruence).
    rewrite !decide_True in Hl by reflexivity. discriminate.
  - discriminate.
  - exact Hnd.
Qed.


Lemma Inv_created (context : ExtensionContext) (targetUrl : jsstring)
  (w : world) (x : WebviewPanel) (y : PanelSocket) :
  Inv w -> instance w = None -> released x = false -> disposed y = false ->
  Inv {| instance := Some (next_instance context targetUrl w);
         objects := objects w ++ [next_instance context targetUrl w];
         panels := panels w ++ [x];
         sockets := sockets w ++ [y] |}.
Proof.
  intros [Hr Hls Hsl Hnd] Hslot Hx Hy.
  set (new := next_instance context targetUrl w).
  assert (Hpn : forall l : list WebviewPanel, (l ++ [x]) !! length l = Some x)
    by (intros l; apply list_lookup_middle; reflexivity).
  assert (Hsn : forall l : list PanelSocket, (l ++ [y]) !! length l = Some y)
    by (intros l; apply list_lookup_middle; reflexivity).
  split; simpl.
  - intros i Hi. rewrite !length_app. simpl.
    apply elem_of_app in Hi as [Hi|Hi].
    + destruct (Hr i Hi). lia.
    + apply list_elem_of_singleton in Hi as ->. simpl. lia.
  - intros i Hi Hl. apply elem_of_app in Hi as [Hi|Hi].
    + exfalso. destruct (Hr i Hi) as [Hp Hs].
      assert (Hli : live w i = true).
      { unfold live, panel_live, socket_live in *. simpl in Hl.
        rewrite (lookup_app_l (panels w)), (lookup_app_l (sockets w)) in Hl
          by assumption.
        exact Hl. }
      specialize (Hls i Hi Hli). congruence.
    + apply list_elem_of_singleton in Hi as ->. reflexivity.
  - intros i Hi. injection Hi as <-. split; [|split].
    + apply elem_of_app. right. apply list_elem_of_singleton. reflexivity.
    + unfold panel_live. simpl. rewrite Hpn, Hx. reflexivity.
    + unfold socket_live. simpl. rewrite Hsn, Hy. reflexivity.
  - apply NoDup_app. split; [exact Hnd|]. split; [|apply NoDup_singleton].
    intros i Hi Hn. apply list_elem_of_singleton in Hn as ->.
    destruct (Hr new Hi) as [Hp _]. simpl in Hp. lia.
Qed.

(** A change that keeps the slot, the controllers and every release flag. *)
Lemma Inv_kept (w w' : world) :
  Inv w ->
  instance w' = instance w -> objects w' = objects w ->
  length (panels w') = length (panels w) ->
  length (sockets w') = length (sockets w) ->
  (forall q, panel_live w' q = panel_live w q) ->
  (forall q, socket_live w' q = socket_live w q) ->
  Inv w'.
Proof.
  intros [Hr Hls Hsl Hnd] Hi Ho Hlp Hlso Hp Hs.
  split.
  - intros i. rewrite Ho, Hlp, Hlso. apply Hr.
  - intros i. rewrite Ho, Hi. unfold live. rewrite Hp, Hs. apply Hls.
  - intros i. rewrite Ho, Hi, Hp, Hs. apply Hsl.
  - rewrite Ho. exact Hnd.
Qed.

(** *** What [reportError] does with a parsed value *)

Lemma is_error_event_run (v : json) (w : world) :
  is_error_event v w
  = match v with
    | JNull => Run (Throw TypeError) w []
    | _ => Run (Ok (structured_error v)) w []
    end.
Proof.
  destruct v; try reflexivity.
  unfold is_error_event, structured_error, bind, lift, own. simpl.
  destruct (is_defined (obj_get members (js "errorCode"))); [|reflexivity].
  simpl. destruct (ToBoolean (obj_get members (js "title"))); reflexivity.
Qed.

Lemma reportError_state (this : ScreencastPanel) (msg : jsstring) (w : world) :
  state (reportError this msg w) = w.
Proof.
  unfold reportError, bind, JSON_parse_or_throw.
  destruct (JSON_parse msg) as [v|]; [|reflexivity].
  simpl. rewrite is_error_event_run.
  destruct v; try reflexivity; simpl;
    match goal with |- context [structured_error ?v] =>
      destruct (structured_error v); reflexivity end.
Qed.

(** *** Every operation keeps the invariant *)

Lemma update_run (this : ScreencastPanel) (w : world) :
  exists (h : jsstring) (l : list effect),
    getHtmlForWebview this w = Run (Ok h) w l
    /\ update this w
       = Run (Ok tt) (with_panels (alter (assign_html h) (panel this)) w)
           (l ++ [ESetHtml (panel this) h]).
Proof. eexists _, _. split; reflexivity. Qed.

Lemma occur_view_state (this : ScreencastPanel) (v : bool) (w : world) :
  exists f : WebviewPanel -> WebviewPanel,
    (forall x, released (f x) = released x)
    /\ state (occur this (ViewStateChanges v) w)
       = with_panels (alter f (panel this)) w.
Proof.
  unfold occur, handler, bind, host_show, panel_visible.
  cbn [result state effects].
  destruct (is_visible _ _).
  - destruct (update_run this (with_panels (alter (show v) (panel this)) w))
      as (h & l & _ & ->).
    exists (assign_html h ∘ show v). split; [reflexivity|].
    unfold with_panels. cbn [instance objects panels sockets state]. f_equal.
    apply list_alter_alter_eq.
  - exists (show v). split; reflexivity.
Qed.

Lemma step_Inv (w w' : world) : Inv w -> step w w' -> Inv w'.
Proof.
  intros HI Hstep. destruct Hstep as [c u w | this w Hin Hl | this o w Hin Hl].
  - destruct (instance w) as [this|] eqn:Hslot.
    + rewrite (createOrShow_existing_run c u w this Hslot), dispose_run. simpl.
      destruct (inv_slot_live w HI this Hslot) as (Hin & Hp & Hs).
      apply Inv_released; auto. unfold live. rewrite Hp. reflexivity.
    + rewrite (createOrShow_fresh_run c u w Hslot). simpl.
      apply Inv_created; auto.
  - rewrite dispose_run. simpl. apply Inv_released; auto.
  - destruct o as [|v|m| |msg|e m].
    + unfold occur, handler, bind, host_release. rewrite !dispose_run. simpl.
      unfold with_sockets. simpl.
      rewrite alter_release_twice, alter_close_socket_twice.
      apply Inv_released; auto.
    + destruct (occur_view_state this v w) as (f & Hf & ->).
      apply (Inv_kept w); auto.
      * apply length_alter.
      * intros q. apply panel_live_alter_kept, Hf.
    + exact HI.
    + unfold occur, handler, onSocketClose. rewrite dispose_run. simpl.
      apply Inv_released; auto.
    + unfold occur, handler. rewrite reportError_state. exact HI.
    + exact HI.
Qed.

Lemma reachable_Inv (w : world) : reachable w -> Inv w.
Proof.
  induction 1 as [|w w' _ IH Hstep].
  - apply Inv_initial.
  - eapply step_Inv; eauto.
Qed.

(** C10 (as amended): in every state reached by [createOrShow] and by
    [dispose], the five listeners and the socket bridge's callback of
    live controllers, the live controllers are the one in the static
    slot, or none when the slot is empty, so there is at most one; and
    each of these operations leads to such a state again.  The
    restriction to live controllers is the premise of [step_dispose] and
    [step_occur]. *)
Theorem at_most_one_live_instance (w : world) :
  reachable w ->
  sole_instance w
  /\ length (live_instances w) <= 1
  /\ forall w', step w w' ->
       sole_instance w' /\ length (live_instances w') <= 1.
Proof.
  assert (Hone : forall u, Inv u ->
            sole_instance u /\ length (live_instances u) <= 1).
  { intros u Hu. pose proof (Inv_sole_instance u Hu) as Hs.
    split; [exact Hs|]. rewrite Hs. destruct (instance u); simpl; lia. }
  intros Hr. pose proof (reachable_Inv w Hr) as HI.
  destruct (Hone w HI) as [Hs Hl]. repeat split; auto.
  - apply Hone. eapply step_Inv; eauto.
  - apply Hone. eapply step_Inv; eauto.
Qed.


(** C1 (as amended): two [createOrShow] calls in a row, from a reachable
    state.  When the slot holds a controller, the first call releases its
    panel and its socket bridge, then the second constructs the new
    controller, which is then the one live controller.  When the slot is
    empty, the first call constructs a controller and the second disposes
    it, so none is left. *)
Theorem createOrShow_twice (w : world) (c1 c2 : ExtensionContext)
  (u1 u2 : jsstring) :
  reachable w ->
  let r := (createOrShow c1 u1 ;; createOrShow c2 u2) w in
  match instance w with
  | Some old =>
      instance (state r) = Some (next_instance c2 u2 w)
      /\ live_instances (state r) = [next_instance c2 u2 w]
      /\ live (state r) old = false
      /\ effects r
         = [EPanelDispose (panel old); ESocketDispose (panelSocket old)]
           ++ construction c2 u2 w
  | None =>
      instance (state r) = None
      /\ live_instances (state r) = []
      /\ effects r
         = construction c1 u1 w
           ++ [EPanelDispose (panel (next_instance c1 u1 w));
               ESocketDispose (panelSocket (next_instance c1 u1 w))]
  end.
Proof.
  intros Hr. pose proof (reachable_Inv w Hr) as HI.
  assert (HI1 : Inv (state (createOrShow c1 u1 w)))
    by (eapply step_Inv; [exact HI | constructor]).
  assert (HI2 : Inv (state (createOrShow c2 u2 (state (createOrShow c1 u1 w)))))
    by (eapply step_Inv; [exact HI1 | constructor]).
  apply Inv_sole_instance in HI2 as Hsole. unfold sole_instance in Hsole.
  destruct (instance w) as [old|] eqn:Hslot; cbv zeta.
  - unfold bind.
    rewrite (createOrShow_existing_run c1 u1 w old Hslot) in *.
    rewrite dispose_run in *. cbn [result state effects] in *.
    rewrite createOrShow_fresh_run in * by reflexivity.
    cbn [result state effects instance] in *.
    assert (Hnew : next_instance c2 u2
                     {| instance := None; objects := objects w;
                        panels := alter release (panel old) (panels w);
                        sockets := alter close_socket (panelSocket old)
                                     (sockets w) |}
                   = next_instance c2 u2 w).
    { unfold next_instance. simpl. rewrite !length_alter. reflexivity. }
    assert (Hcon : construction c2 u2
                     {| instance := None; objects := objects w;
                        panels := alter release (panel old) (panels w);
                        sockets := alter close_socket (panelSocket old)
                                     (sockets w) |}
                   = construction c2 u2 w).
    { unfold construction. simpl. rewrite !length_alter. reflexivity. }
    rewrite Hnew in *. rewrite Hcon.
    repeat split; auto.
    destruct (inv_slot_live w HI old Hslot) as (Hin & _ & _).
    destruct (inv_range w HI old Hin) as [Hp _].
    destruct (live _ old) eqn:Hlive; [exfalso|reflexivity].
    apply (inv_live_slot _ HI2) in Hlive.
    + simpl in Hlive. injection Hlive as Hlive. rewrite <- Hlive in Hp.
      simpl in Hp. lia.
    + simpl. apply elem_of_app. left. exact Hin.
  - unfold bind.
    rewrite (createOrShow_fresh_run c1 u1 w Hslot) in *.
    cbn [result state effects] in *.
    rewrite (createOrShow_existing_run c2 u2 _ (next_instance c1 u1 w))
      in * by reflexivity.
    rewrite dispose_run in *. cbn [result state effects instance] in *.
    repeat split; auto.
Qed.

Lemma map_html_alter (f : WebviewPanel -> WebviewPanel) (p : handle)
  (l : list WebviewPanel) :
  (forall x, html (f x) = html x) ->
  map html (alter f p l) = map html l.
Proof.
  intros Hf. revert p. induction l as [|x l IH]; intros [|p]; simpl;
    try reflexivity.
  - rewrite Hf. reflexivity.
  - f_equal. apply IH.
Qed.

Lemma reportError_run_anywhere (this : ScreencastPanel) (msg : jsstring)
  (w w' : world) :
  result (reportError this msg w) = result (reportError this msg w')
  /\ effects (reportError this msg w) = effects (reportError this msg w')
  /\ renders (effects (reportError this msg w)) = [].
Proof.
  unfold reportError, bind, JSON_parse_or_throw.
  destruct (JSON_parse msg) as [v|]; [|repeat split].
  cbn [ret result state effects]. rewrite !is_error_event_run.
  destruct v; try (repeat split; fail); cbn [result state effects];
    match goal with |- context [structured_error ?v] =>
      destruct (structured_error v); repeat split end.
Qed.

Lemma createOrShow_no_render (c : ExtensionContext) (u : jsstring) (w : world) :
  renders (effects (createOrShow c u w)) = [].
Proof.
  destruct (instance w) as [this|] eqn:Hslot.
  - rewrite (createOrShow_existing_run c u w this Hslot). reflexivity.
  - rewrite (createOrShow_fresh_run c u w Hslot). reflexivity.
Qed.

Lemma hidden_after_hide (p : handle) (w : world) :
  is_visible (with_panels (alter (show false) p) w) p = false.
Proof.
  unfold is_visible, with_panels. cbn [panels].
  unfold handle in *. rewrite list_lookup_alter_eq.
  destruct (_ !! _); reflexivity.
Qed.

(** C3: while the panel is not visible, nothing assigns HTML to its
    webview.  [update] is called from one place, the visibility-change
    listener, behind its test of [panel.visible]: with the panel not
    visible that listener does nothing at all, also when it is the host
    that has just hidden the panel; and no other listener, nor [dispose],
    [createOrShow] or [postToWebview], reaches the render path. *)
Theorem hidden_panel_is_never_rendered (this : ScreencastPanel) (w : world) :
  is_visible w (panel this) = false ->
  handler this PanelDidChangeViewState w = Run (Ok tt) w []
  /\ (forall ev : event,
        renders (effects (handler this ev w)) = []
        /\ map html (panels (state (handler this ev w)))
           = map html (panels w))
  /\ renders (effects (occur this (ViewStateChanges false) w)) = []
  /\ renders (effects (dispose this w)) = []
  /\ (forall c u, renders (effects (createOrShow c u w)) = [])
  /\ (forall e m, renders (effects (postToWebview this e m w)) = []).
Proof.
  intros Hv.
  assert (Hview : forall u, is_visible u (panel this) = false ->
            handler this PanelDidChangeViewState u = Run (Ok tt) u []).
  { intros u Hu. unfold handler, bind, panel_visible.
    cbn [result state effects]. rewrite Hu. reflexivity. }
  split; [apply Hview, Hv|]. split; [|split; [|split; [|split]]].
  - intros ev. destruct ev as [|msg| | |m].
    + split; [reflexivity|]. unfold handler, onSocketClose.
      rewrite dispose_run. cbn [state panels].
      apply map_html_alter. reflexivity.
    + unfold handler. rewrite reportError_state.
      split; [apply (reportError_run_anywhere this msg w w) | reflexivity].
    + split; [reflexivity|]. unfold handler, bind. rewrite !dispose_run.
      cbn [result state effects]. unfold socket_dispose, with_sockets.
      cbn [state panels]. apply map_html_alter. reflexivity.
    + rewrite (Hview w Hv). split; reflexivity.
    + split; reflexivity.
  - unfold occur, bind, host_show. cbn [result state effects app].
    rewrite (Hview _ (hidden_after_hide (panel this) w)). reflexivity.
  - reflexivity.
  - intros c u. apply createOrShow_no_render.
  - intros e m. destruct m; reflexivity.
Qed.

(** C4 (as amended): when the text parses to a value other than [null],
    [reportError] hands that value to the error dialog if its [errorCode]
    is defined and its [title] and [message] are truthy, and otherwise
    sends the telemetry event [view/screencast/error] with the raw text as
    its [message]; the two texts of the specification go to the dialog
    and to telemetry. *)
Theorem reportError_routing (this : ScreencastPanel) (w : world) :
  (forall (msg : jsstring) (v : json),
     JSON_parse msg = Some v -> v <> JNull ->
     reportError this msg w
     = Run (Ok tt) w
         (if structured_error v then [EShowErrorDialog v]
          else [ESendTelemetryErrorEvent (telemetryReporter this)
                  (js "view/screencast/error") [(js "message", msg)]]))
  /\ reportError this
       (jsq "{'errorCode':1,'title':'Oops','message':'failed'}") w
     = Run (Ok tt) w
         [EShowErrorDialog
            (JObj [(js "errorCode", JNum (Number false 1 0));
                   (js "title", JStr (js "Oops"));
                   (js "message", JStr (js "failed"))])]
  /\ reportError this (jsq "{'foo':'bar'}") w
     = Run (Ok tt) w
         [ESendTelemetryErrorEvent (telemetryReporter this)
            (js "view/screencast/error")
            [(js "message", jsq "{'foo':'bar'}")]].
Proof.
  split; [|split; reflexivity].
  intros msg v Hparse Hnull.
  unfold reportError, bind, JSON_parse_or_throw. rewrite Hparse.
  cbn [ret result state effects]. rewrite is_error_event_run.
  destruct v; try congruence; cbn [result state effects];
    match goal with |- context [structured_error ?v] =>
      destruct (structured_error v); reflexivity end.
Qed.

Lemma teardown_state (this : ScreencastPanel) (t : trigger) (w : world) :
  instance w = Some this ->
  state (teardown this t w) = state (dispose this w).
Proof.
  intros Hslot. destruct t as [| | |c u]; try reflexivity.
  - unfold teardown, occur, handler, bind, host_release.
    rewrite !dispose_run. simpl. unfold with_sockets. simpl.
    rewrite alter_release_twice, alter_close_socket_twice. reflexivity.
  - unfold teardown.
    rewrite (createOrShow_existing_run c u w this Hslot). reflexivity.
Qed.


End Properties.


(** ** The controller on the sample host *)

Lemma shown_reachable : @reachable sample_host shown.
Proof.
  apply (reachable_step initial); [apply reachable_initial|].
  apply step_createOrShow.
Defined.

(** C1 as stated fails from the empty slot: the second call disposes the
    controller the first one constructed, and no controller is left. *)
Lemma createOrShow_twice_from_empty_leaves_none :
  let r := (createOrShow sample_context sample_url ;;
            createOrShow sample_context second_url) initial in
  instance (state r) = None
  /\ live_instances (state r) = []
  /\ panel_live (state r) 0 = false.
Proof. repeat split. Qed.

Lemma createOrShow_twice_witness :
  reachable shown
  /\ let r := (createOrShow sample_context sample_url ;;
               createOrShow sample_context second_url) shown in
     instance (state r) = Some (next_instance sample_context second_url shown)
     /\ live_instances (state r)
        = [next_instance sample_context second_url shown]
     /\ live (state r) first = false
     /\ effects r
        = [EPanelDispose 0; ESocketDispose 0]
          ++ construction sample_context second_url shown.
Proof.
  split; [exact shown_reachable|].
  exact (createOrShow_twice shown sample_context sample_context sample_url
           second_url shown_reachable).
Defined.

Lemma createOrShow_existing_only_disposes_witness :
  instance shown = Some first
  /\ createOrShow sample_context second_url shown = dispose first shown
  /\ instance (state (createOrShow sample_context second_url shown)) = None.
Proof.
  split; [reflexivity|].
  pose proof (createOrShow_existing_only_disposes shown first sample_context
                second_url eq_refl) as (H1 & H2 & _).
  split; [exact H1 | exact H2].
Defined.

Lemma hidden_panel_is_never_rendered_witness :
  is_visible hidden (panel first) = false
  /\ handler first PanelDidChangeViewState hidden = Run (Ok tt) hidden []
  /\ renders (effects (handler first (SocketReportError (jsq "{'foo':'bar'}"))
                         hidden)) = [].
Proof.
  split; [reflexivity|].
  pose proof (hidden_panel_is_never_rendered first hidden eq_refl)
    as (H1 & H2 & _).
  split; [exact H1|].
  exact (proj1 (H2 (SocketReportError (jsq "{'foo':'bar'}")))).
Defined.

(** C4 as stated fails when [errorCode] is missing: the parsed object has
    its [title] and its [message], and yet it goes to telemetry, not to
    the dialog.  And the valid text [null] reaches neither. *)
Lemma reportError_without_errorCode_goes_to_telemetry :
  let msg := jsq "{'title':'Oops','message':'failed'}" in
  JSON_parse msg
  = Some (JObj [(js "title", JStr (js "Oops"));
                (js "message", JStr (js "failed"))])
  /\ reportError first msg initial
     = Run (Ok tt) initial
         [ESendTelemetryErrorEvent (telemetryReporter first) (js "view/screencast/error")
            [(js "message", msg)]]
  /\ JSON_parse (js "null") = Some JNull
  /\ reportError first (js "null") initial = Run (Throw TypeError) initial [].
Proof. repeat split. Qed.

Lemma reportError_routing_witness :
  let msg := jsq "{'errorCode':'E42','title':'Socket','message':'refused'}" in
  let v := JObj [(js "errorCode", JStr (js "E42"));
                 (js "title", JStr (js "Socket"));
                 (js "message", JStr (js "refused"))] in
  JSON_parse msg = Some v /\ v <> JNull
  /\ reportError first msg initial = Run (Ok tt) initial [EShowErrorDialog v].
Proof.
  intros msg v. split; [reflexivity|]. split; [discriminate|].
  exact (proj1 (reportError_routing first initial) msg v eq_refl
           ltac:(discriminate)).
Defined.

Lemma reportError_malformed_throws_witness :
  JSON_parse (jsq "{'title':") = None
  /\ reportError first (jsq "{'title':") initial
     = Run (Throw SyntaxError) initial [].
Proof.
  split; [reflexivity|].
  exact (reportError_malformed_throws first (jsq "{'title':") initial eq_refl).
Defined.



Lemma at_most_one_live_instance_witness :
  reachable shown
  /\ sole_instance shown
  /\ length (live_instances shown) <= 1.
Proof.
  split; [exact shown_reachable|].
  pose proof (at_most_one_live_instance shown shown_reachable) as (H1 & H2 & _).
  split; [exact H1 | exact H2].
Defined.

(** C10 as stated fails when a listener of a disposed controller runs:
    [dispose] clears the slot whoever calls it.  A [close] delivered to
    the first, disposed controller while a second one is live empties the
    slot, and the next [createOrShow] opens a third panel beside the
    second: two controllers are live. *)
Example stale_close_orphans_live_controller :
  let w3 := state ((createOrShow sample_context sample_url ;;
                    createOrShow sample_context sample_url ;;
                    createOrShow sample_context second_url) initial) in
  let w4 := state (handler first SocketClose w3) in
  let w5 := state (createOrShow sample_context sample_url w4) in
  live w3 first = false
  /\ length (live_instances w3) = 1
  /\ instance w4 = None
  /\ length (live_instances w4) = 1
  /\ length (live_instances w5) = 2.
Proof. repeat split. Qed.

(** ** Further properties of the controller *)

Section Further.
Context `{Collaborators}.

(** *** The shapes of a step *)

Lemma occur_close_state (this : ScreencastPanel) (w : world) :
  state (occur this UserClosesPanel w) = state (dispose this w).
Proof.
  unfold occur, handler, bind, host_release.
  rewrite !dispose_run. simpl. unfold with_sockets. simpl.
  rewrite alter_release_twice, alter_close_socket_twice. reflexivity.
Qed.

(** A step constructs a controller, or releases the resources of one and
    clears the slot, or changes one panel's visibility and HTML, or
    changes nothing. *)
Lemma step_shape (w w' : world) :
  step w w' ->
  (exists c u, instance w = None
     /\ w' = {| instance := Some (next_instance c u w);
                objects := objects w ++ [next_instance c u w];
                panels := panels w ++ [{| released := false;
                                          visible := created_visible;
                                          html := [] |}];
                sockets := sockets w ++ [{| socket_url := u;
                                            disposed := false |}] |})
  \/ (exists this,
        w' = {| instance := None; objects := objects w;
                panels := alter release (panel this) (panels w);
                sockets := alter close_socket (panelSocket this)
                             (sockets w) |})
  \/ (exists f p, (forall x, released (f x) = released x)
        /\ w' = with_panels (alter f p) w)
  \/ w' = w.
Proof.
  intros Hstep. destruct Hstep as [c u w | this w _ _ | this o w _ _].
  - destruct (instance w) as [this|] eqn:Hslot.
    + right. left. exists this.
      rewrite (createOrShow_existing_run c u w this Hslot), dispose_run.
      reflexivity.
    + left. exists c, u. split; [reflexivity|].
      rewrite (createOrShow_fresh_run c u w Hslot). reflexivity.
  - right. left. exists this. rewrite dispose_run. reflexivity.
  - destruct o as [|v|m| |msg|e m].
    + right. left. exists this. rewrite occur_close_state, dispose_run.
      reflexivity.
    + right. right. left.
      destruct (occur_view_state this v w) as (f & Hf & ->).
      exists f, (panel this). split; [exact Hf | reflexivity].
    + right. right. right. reflexivity.
    + right. left. exists this. unfold occur, handler, onSocketClose.
      rewrite dispose_run. reflexivity.
    + right. right. right. unfold occur, handler. apply reportError_state.
    + right. right. right. reflexivity.
Qed.

(** *** Controllers and their handles *)

Lemma well_formed_initial : well_formed initial.
Proof.
  split; [reflexivity|]. split; [reflexivity|].
  intros k i Hk. destruct k; discriminate.
Qed.

Lemma step_well_formed (w w' : world) :
  well_formed w -> step w w' -> well_formed w'.
Proof.
  intros (Hp & Hs & Hobj) Hstep.
  destruct (step_shape w w' Hstep)
    as [(c & u & Hslot & ->) | [(this & ->) | [(f & p & Hf & ->) | ->]]].
  - split; [|split]; cbn [instance objects panels sockets with_panels].
    + rewrite !length_app, Hp. reflexivity.
    + rewrite !length_app, Hs. reflexivity.
    + intros k i Hk. apply lookup_app_Some in Hk as [Hk|[Hge Hk]].
      * destruct (Hobj k i Hk) as (H1 & H2 & H3 & H4 & s & H5 & H6).
        repeat (split; [assumption|]).
        exists s. split; [|assumption].
        rewrite lookup_app_l; [assumption|]. eapply lookup_lt_Some, H5.
      * destruct (k - length (objects w)) as [|n] eqn:Hn; [|discriminate].
        injection Hk as <-. cbn [next_instance panel panelSocket extensionPath
          telemetryReporter context targetUrl].
        assert (k = length (objects w)) as -> by lia.
        rewrite Hp, Hs. repeat (split; [reflexivity|]).
        eexists. split.
        { rewrite <- Hs. apply list_lookup_middle. reflexivity. }
        reflexivity.
  - split; [|split]; cbn [instance objects panels sockets with_panels].
    + rewrite length_alter. exact Hp.
    + rewrite length_alter. exact Hs.
    + intros k i Hk.
      destruct (Hobj k i Hk) as (H1 & H2 & H3 & H4 & s & H5 & H6).
      repeat (split; [assumption|]).
      unfold handle in *. rewrite list_lookup_alter.
      case_decide as Hd; [rewrite Hd|]; rewrite H5;
        [exists (close_socket s) | exists s];
        (split; [reflexivity | exact H6]).
  - split; [|split]; cbn [instance objects panels sockets with_panels].
    + rewrite length_alter. exact Hp.
    + exact Hs.
    + exact Hobj.
  - split; [|split]; assumption.
Qed.

Lemma reachable_well_formed (w : world) : reachable w -> well_formed w.
Proof.
  induction 1 as [|w w' _ IH Hstep].
  - apply well_formed_initial.
  - eapply step_well_formed; eauto.
Qed.

(** X3: in a reachable state no two controllers share a panel or a socket
    bridge, and every panel and every socket bridge that was created
    belongs to a controller. *)
Theorem handles_have_one_owner (w : world) :
  reachable w ->
  (forall i j, i ∈ objects w -> j ∈ objects w ->
     panel i = panel j \/ panelSocket i = panelSocket j -> i = j)
  /\ (forall p, p < length (panels w) ->
        exists i, i ∈ objects w /\ panel i = p)
  /\ (forall s, s < length (sockets w) ->
        exists i, i ∈ objects w /\ panelSocket i = s).
Proof.
  intros Hr. destruct (reachable_well_formed w Hr) as (Hp & Hs & Hobj).
  split; [|split].
  - intros i j Hi Hj Heq.
    apply list_elem_of_lookup_1 in Hi as [a Ha].
    apply list_elem_of_lookup_1 in Hj as [b Hb].
    destruct (Hobj a i Ha) as (Hpi & Hsi & _).
    destruct (Hobj b j Hb) as (Hpj & Hsj & _).
    assert (a = b) as -> by (destruct Heq; congruence).
    congruence.
  - intros p Hlt. rewrite Hp in Hlt.
    apply lookup_lt_is_Some_2 in Hlt as [i Hi]. exists i. split.
    + eapply list_elem_of_lookup_2, Hi.
    + apply (Hobj p i Hi).
  - intros s Hlt. rewrite Hs in Hlt.
    apply lookup_lt_is_Some_2 in Hlt as [i Hi]. exists i. split.
    + eapply list_elem_of_lookup_2, Hi.
    + apply (Hobj s i Hi).
Qed.

(** X4: every controller of a reachable state has the fields its
    constructor computed from the context, and its socket bridge is the
    one opened on its own target URL: nothing retargets a controller. *)
Theorem controller_fields_are_fixed (w : world) (i : ScreencastPanel) :
  reachable w -> i ∈ objects w ->
  extensionPath i = context_extensionPath (context i)
  /\ telemetryReporter i = createTelemetryReporter (context i)
  /\ exists s, sockets w !! panelSocket i = Some s
               /\ socket_url s = targetUrl i.
Proof.
  intros Hr Hi. destruct (reachable_well_formed w Hr) as (_ & _ & Hobj).
  apply list_elem_of_lookup_1 in Hi as [k Hk].
  destruct (Hobj k i Hk) as (_ & Hsi & H3 & H4 & s & H5 & H6).
  rewrite Hsi. eauto.
Qed.


(** X1: with the slot empty, [createOrShow] constructs a controller on
    the context and the target URL it was given, on a new panel that is
    not released and a new socket bridge opened on that URL; it assigns
    no HTML, so the new panel's document is empty until a visibility
    change renders it; and it leaves every existing panel as it was. *)
Theorem createOrShow_constructs_blank_panel (w : world)
  (c : ExtensionContext) (u : jsstring) :
  instance w = None ->
  let r := createOrShow c u w in
  let new := next_instance c u w in
  result r = Ok tt
  /\ instance (state r) = Some new
  /\ context new = c /\ targetUrl new = u
  /\ panels (state r) !! panel new
     = Some {| released := false; visible := created_visible; html := [] |}
  /\ sockets (state r) !! panelSocket new
     = Some {| socket_url := u; disposed := false |}
  /\ renders (effects r) = []
  /\ (forall q x, panels w !! q = Some x -> panels (state r) !! q = Some x)
  /\ (forall q x, sockets w !! q = Some x -> sockets (state r) !! q = Some x).
Proof.
  intros Hslot. rewrite (createOrShow_fresh_run c u w Hslot).
  cbn [result state effects instance panels sockets next_instance panel
       panelSocket context targetUrl].
  repeat split.
  - apply list_lookup_middle. reflexivity.
  - apply list_lookup_middle. reflexivity.
  - intros q x Hq. rewrite lookup_app_l; [exact Hq|].
    eapply lookup_lt_Some, Hq.
  - intros q x Hq. rewrite lookup_app_l; [exact Hq|].
    eapply lookup_lt_Some, Hq.
Qed.

(** *** [createOrShow] as a toggle *)

Lemma createOrShow_toggles (c : ExtensionContext) (u : jsstring) (w : world) :
  result (createOrShow c u w) = Ok tt
  /\ occupied (state (createOrShow c u w)) = negb (occupied w).
Proof.
  unfold occupied. destruct (instance w) as [this|] eqn:Hslot.
  - rewrite (createOrShow_existing_run c u w this Hslot), dispose_run.
    split; reflexivity.
  - rewrite (createOrShow_fresh_run c u w Hslot). split; reflexivity.
Qed.

(** X2: [createOrShow] toggles the slot and never throws: after a run of
    calls the slot is occupied exactly when it was occupied before and
    the number of calls is even, or it was empty and the number is odd,
    whatever contexts and target URLs the calls were given. *)
Theorem createOrShow_all_parity (l : list (ExtensionContext * jsstring))
  (w : world) :
  result (createOrShow_all l w) = Ok tt
  /\ occupied (state (createOrShow_all l w))
     = xorb (occupied w) (Nat.odd (length l)).
Proof.
  revert w. induction l as [|[c u] l IH]; intros w.
  - split; [reflexivity|]. simpl. destruct (occupied w); reflexivity.
  - destruct (createOrShow_toggles c u w) as [Hok Hocc].
    destruct (IH (state (createOrShow c u w))) as [IHok IHocc].
    change (createOrShow_all ((c, u) :: l))
      with (bind (createOrShow c u) (fun _ => createOrShow_all l)).
    unfold bind. destruct (createOrShow c u w) as [res w1 l1].
    cbn [result state effects] in *. rewrite Hok.
    cbn [result state effects]. split; [exact IHok|].
    rewrite IHocc, Hocc.
    change (length ((c, u) :: l)) with (S (length l)).
    rewrite Nat.odd_succ, <- Nat.negb_odd.
    destruct (occupied w), (Nat.odd (length l)); reflexivity.
Qed.

(** *** Released for good *)

Lemma step_keeps_released (w w' : world) (p s : handle) :
  step w w' ->
  length (panels w) <= length (panels w')
  /\ length (sockets w) <= length (sockets w')
  /\ (p < length (panels w) -> panel_live w p = false ->
      panel_live w' p = false)
  /\ (s < length (sockets w) -> socket_live w s = false ->
      socket_live w' s = false).
Proof.
  intros Hstep.
  destruct (step_shape w w' Hstep)
    as [(c & u & Hslot & ->) | [(this & ->) | [(f & q & Hf & ->) | ->]]].
  - cbn [panels sockets]. rewrite !length_app. cbn [length].
    split; [lia|]. split; [lia|]. unfold panel_live, socket_live.
    cbn [panels sockets]. split; intros Hlt Hd.
    + rewrite lookup_app_l by exact Hlt. exact Hd.
    + rewrite lookup_app_l by exact Hlt. exact Hd.
  - cbn [panels sockets]. rewrite !length_alter.
    split; [lia|]. split; [lia|]. split; intros _ Hd.
    + change (panel_live (with_panels (alter release (panel this))
                {| instance := None; objects := objects w;
                   panels := panels w;
                   sockets := alter close_socket (panelSocket this)
                                (sockets w) |}) p = false).
      rewrite panel_live_release. case_decide; [reflexivity | exact Hd].
    + change (socket_live (with_sockets (alter close_socket (panelSocket this))
                {| instance := None; objects := objects w;
                   panels := alter release (panel this) (panels w);
                   sockets := sockets w |}) s = false).
      rewrite socket_live_close. case_decide; [reflexivity | exact Hd].
  - cbn [with_panels panels sockets]. rewrite length_alter.
    split; [lia|]. split; [lia|]. split; intros _ Hd.
    + change (panel_live (with_panels (alter f q) w) p = false).
      rewrite panel_live_alter_kept by exact Hf. exact Hd.
    + exact Hd.
  - repeat split; auto.
Qed.

(** X5: a panel that was released and a socket bridge that was disposed
    stay so through every later operation: nothing reopens them. *)
Theorem released_for_good (w w' : world) (p s : handle) :
  rtc step w w' ->
  (p < length (panels w) -> panel_live w p = false ->
   panel_live w' p = false)
  /\ (s < length (sockets w) -> socket_live w s = false ->
      socket_live w' s = false).
Proof.
  intros Hsteps.
  assert (Hall : length (panels w) <= length (panels w')
                 /\ length (sockets w) <= length (sockets w')
                 /\ (p < length (panels w) -> panel_live w p = false ->
                     panel_live w' p = false)
                 /\ (s < length (sockets w) -> socket_live w s = false ->
                     socket_live w' s = false)).
  { induction Hsteps as [w | w w1 w2 Hstep _ IH].
    - repeat split; auto.
    - destruct (step_keeps_released w w1 p s Hstep) as (Hlp & Hls & Hp & Hs).
      destruct IH as (IHlp & IHls & IHp & IHs).
      split; [lia|]. split; [lia|]. split.
      + intros Hlt Hd. apply IHp; [lia | apply Hp; assumption].
      + intros Hlt Hd. apply IHs; [lia | apply Hs; assumption]. }
  destruct Hall as (_ & _ & Hp & Hs). split; assumption.
Qed.


(** *** What the listeners leave alone *)

Lemma handler_view_state (this : ScreencastPanel) (w : world) :
  exists h : jsstring,
    (forall w0, result (getHtmlForWebview this w0) = Ok h)
    /\ state (handler this PanelDidChangeViewState w)
       = (if is_visible w (panel this)
          then with_panels (alter (assign_html h) (panel this)) w else w)
    /\ renders (effects (handler this PanelDidChangeViewState w))
       = (if is_visible w (panel this)
          then [ESetHtml (panel this) h] else []).
Proof.
  eexists. split; [intros w0; reflexivity|].
  unfold handler, bind, panel_visible. cbn [result state effects].
  destruct (is_visible w (panel this)); split; reflexivity.
Qed.

Lemma handler_state (this : ScreencastPanel) (ev : event) (w : world) :
  state (handler this ev w) = state (dispose this w)
  \/ (exists h, state (handler this ev w)
                = with_panels (alter (assign_html h) (panel this)) w)
  \/ state (handler this ev w) = w.
Proof.
  destruct ev as [|msg| | |m].
  - left. reflexivity.
  - right. right. apply reportError_state.
  - left. unfold handler, bind. rewrite !dispose_run. simpl.
    unfold with_sockets. simpl. rewrite alter_close_socket_twice.
    reflexivity.
  - destruct (handler_view_state this w) as (h & _ & -> & _).
    destruct (is_visible w (panel this)); [right; left; eauto | auto].
  - right. right. reflexivity.
Qed.

(** X6: a listener constructs nothing and reaches no panel and no socket
    bridge but its own controller's: every other panel and every other
    socket bridge is left exactly as it was. *)
Theorem handler_touches_own_handles_only (this : ScreencastPanel) (ev : event)
  (w : world) :
  let w' := state (handler this ev w) in
  objects w' = objects w
  /\ length (panels w') = length (panels w)
  /\ length (sockets w') = length (sockets w)
  /\ (forall q, q <> panel this -> panels w' !! q = panels w !! q)
  /\ (forall s, s <> panelSocket this -> sockets w' !! s = sockets w !! s).
Proof.
  cbv zeta. destruct (handler_state this ev w) as [-> | [(h & ->) | ->]].
  - rewrite dispose_run. cbn [state objects panels sockets].
    rewrite !length_alter. repeat split.
    + intros q Hq. apply list_lookup_alter_ne. congruence.
    + intros s Hs. apply list_lookup_alter_ne. congruence.
  - cbn [with_panels objects panels sockets]. rewrite length_alter.
    repeat split. intros q Hq. apply list_lookup_alter_ne. congruence.
  - repeat split.
Qed.

Lemma map_released_alter (f : WebviewPanel -> WebviewPanel) (p : handle)
  (l : list WebviewPanel) :
  (forall x, released (f x) = released x) ->
  map released (alter f p l) = map released l.
Proof.
  intros Hf. revert p. induction l as [|x l IH]; intros [|p]; simpl;
    try reflexivity.
  - rewrite Hf. reflexivity.
  - f_equal. apply IH.
Qed.

Lemma map_visible_alter (f : WebviewPanel -> WebviewPanel) (p : handle)
  (l : list WebviewPanel) :
  (forall x, visible (f x) = visible x) ->
  map visible (alter f p l) = map visible l.
Proof.
  intros Hf. revert p. induction l as [|x l IH]; intros [|p]; simpl;
    try reflexivity.
  - rewrite Hf. reflexivity.
  - f_equal. apply IH.
Qed.

(** X7: only the two teardown listeners change the slot or release
    anything.  The [reportError], visibility-change and webview-message
    listeners and the [postToWebview] callback keep the slot, the socket
    bridges, and every panel's release flag and visibility; all but the
    visibility-change listener keep the whole state. *)
Theorem quiet_listeners_keep_lifecycle (this : ScreencastPanel) (ev : event)
  (w : world) :
  ev <> SocketClose -> ev <> PanelDidDispose ->
  let w' := state (handler this ev w) in
  instance w' = instance w
  /\ objects w' = objects w
  /\ sockets w' = sockets w
  /\ map released (panels w') = map released (panels w)
  /\ map visible (panels w') = map visible (panels w)
  /\ (ev <> PanelDidChangeViewState -> w' = w)
  /\ forall e m, state (postToWebview this e m w) = w.
Proof.
  intros Hc Hd. cbv zeta. destruct ev as [|msg| | |m]; try congruence.
  - unfold handler. rewrite reportError_state. repeat split.
  - destruct (handler_view_state this w) as (h & _ & -> & _).
    destruct (is_visible w (panel this)).
    + cbn [with_panels instance objects panels sockets].
      rewrite map_released_alter, map_visible_alter by reflexivity.
      repeat split. congruence.
    + repeat split.
  - repeat split.
Qed.

(** X8: each of the four teardowns of the controller in the slot leaves
    the state one [dispose()] leaves: it calls [panel.dispose()] and
    [panelSocket.dispose()], the controller is no longer live, and no
    live controller remains. *)
Theorem teardown_releases_everything (this : ScreencastPanel) (t : trigger)
  (w : world) :
  reachable w -> instance w = Some this ->
  let r := teardown this t w in
  state r = state (dispose this w)
  /\ EPanelDispose (panel this) ∈ effects r
  /\ ESocketDispose (panelSocket this) ∈ effects r
  /\ live (state r) this = false
  /\ live_instances (state r) = [].
Proof.
  intros Hr Hslot. cbv zeta.
  pose proof (reachable_Inv w Hr) as HI.
  destruct (inv_slot_live w HI this Hslot) as (Hin & Hp & Hs).
  assert (Hlive : live w this = true) by (unfold live; rewrite Hp; reflexivity).
  pose proof (Inv_released w this HI Hin Hlive) as HI1.
  rewrite (teardown_state this t w Hslot), dispose_run. cbn [state].
  split; [reflexivity|]. split; [|split].
  - destruct t as [| | |c u]; cbn [teardown].
    + apply elem_of_cons. auto.
    + apply elem_of_cons. auto.
    + apply elem_of_cons. auto.
    + rewrite (createOrShow_existing_run c u w this Hslot).
      apply elem_of_cons. auto.
  - destruct t as [| | |c u]; cbn [teardown].
    + do 2 (apply elem_of_cons; right). apply elem_of_cons. auto.
    + apply elem_of_cons; right. apply elem_of_cons. auto.
    + apply elem_of_cons; right. apply elem_of_cons. auto.
    + rewrite (createOrShow_existing_run c u w this Hslot).
      apply elem_of_cons; right. apply elem_of_cons. auto.
  - pose proof (Inv_sole_instance _ HI1) as Hsole.
    unfold sole_instance in Hsole. cbn [instance] in Hsole.
    split; [|exact Hsole].
    match goal with |- ?x = false => destruct x eqn:Hl end; [|reflexivity].
    apply (inv_live_slot _ HI1) in Hl; [discriminate | exact Hin].
Qed.


(** *** Rendering *)

(** X9: when the host shows a panel that exists and was not released,
    the visibility-change listener assigns it the HTML of
    [getHtmlForWebview]; when the host hides it, the listener assigns
    nothing and the panel keeps the HTML it had. *)
Theorem view_state_change_renders_when_visible (this : ScreencastPanel)
  (w : world) (x : WebviewPanel) :
  panels w !! panel this = Some x -> released x = false ->
  exists h : jsstring,
    (forall w0, result (getHtmlForWebview this w0) = Ok h)
    /\ panels (state (occur this (ViewStateChanges true) w)) !! panel this
       = Some {| released := false; visible := true; html := h |}
    /\ renders (effects (occur this (ViewStateChanges true) w))
       = [ESetHtml (panel this) h]
    /\ panels (state (occur this (ViewStateChanges false) w)) !! panel this
       = Some {| released := false; visible := false; html := html x |}
    /\ renders (effects (occur this (ViewStateChanges false) w)) = [].
Proof.
  intros Hx Hlive.
  assert (Hvis : forall v,
            is_visible (with_panels (alter (show v) (panel this)) w)
              (panel this) = v).
  { intros v. unfold is_visible, with_panels. cbn [panels].
    unfold handle in *. rewrite list_lookup_alter_eq, Hx. reflexivity. }
  assert (Hlook : forall v,
            panels (with_panels (alter (show v) (panel this)) w) !! panel this
            = Some {| released := false; visible := v; html := html x |}).
  { intros v. unfold with_panels. cbn [panels].
    unfold handle in *. rewrite list_lookup_alter_eq, Hx.
    simpl. unfold show. rewrite Hlive. reflexivity. }
  destruct (handler_view_state this
              (with_panels (alter (show true) (panel this)) w))
    as (h & Hh & Hst & Hef).
  destruct (handler_view_state this
              (with_panels (alter (show false) (panel this)) w))
    as (h' & _ & Hst' & Hef').
  rewrite Hvis in Hst, Hef, Hst', Hef'.
  exists h. split; [exact Hh|].
  unfold occur, bind, host_show. cbn [result state effects app].
  rewrite Hst, Hef, Hst', Hef'.
  split; [|split; [reflexivity|split; [|reflexivity]]].
  - unfold with_panels at 1. cbn [panels].
    unfold handle in *. rewrite list_lookup_alter_eq.
    specialize (Hlook true). unfold handle in *. rewrite Hlook. reflexivity.
  - apply Hlook.
Qed.

(** *** The payloads of [reportError] *)

(** X11: a payload that parses to [null] makes [reportError] throw a
    [TypeError] when it reads [errorCode]; neither the dialog nor the
    telemetry reporter is called. *)
Theorem reportError_null_throws (this : ScreencastPanel) (msg : jsstring)
  (w : world) :
  JSON_parse msg = Some JNull ->
  reportError this msg w = Run (Throw TypeError) w [].
Proof.
  intros Hparse. unfold reportError, bind, JSON_parse_or_throw.
  rewrite Hparse. reflexivity.
Qed.

(** X12: a payload that parses to a boolean, a number, a string or an
    array has none of the three properties, so it goes to telemetry with
    the raw text, never to the dialog. *)
Theorem reportError_scalar_goes_to_telemetry (this : ScreencastPanel)
  (msg : jsstring) (v : json) (w : world) :
  JSON_parse msg = Some v ->
  match v with JNull | JObj _ => False | _ => True end ->
  reportError this msg w
  = Run (Ok tt) w
      [ESendTelemetryErrorEvent (telemetryReporter this)
         (js "view/screencast/error") [(js "message", msg)]].
Proof.
  intros Hparse Hv. unfold reportError, bind, JSON_parse_or_throw.
  rewrite Hparse. destruct v; try contradiction; reflexivity.
Qed.

(** X13: [reportError] never changes the state, and it either returns
    after exactly one call, the dialog with the parsed value or the
    telemetry event with the raw text, or throws after no call at all. *)
Theorem reportError_one_call_or_throw (this : ScreencastPanel)
  (msg : jsstring) (w : world) :
  let r := reportError this msg w in
  state r = w
  /\ ((result r = Ok tt
       /\ exists e, effects r = [e] /\ is_report this msg e)
      \/ (exists x, result r = Throw x /\ effects r = [])).
Proof.
  cbv zeta. split; [apply reportError_state|].
  unfold reportError, bind, JSON_parse_or_throw, is_report.
  destruct (JSON_parse msg) as [v|] eqn:Hparse;
    [|right; exists SyntaxError; split; reflexivity].
  cbn [ret result state effects]. rewrite is_error_event_run.
  destruct v;
    try (right; exists TypeError; split; reflexivity);
    cbn [result state effects];
    match goal with |- context [structured_error ?v] =>
      destruct (structured_error v) end;
    left; (split; [reflexivity|]); eexists; (split; [reflexivity|]); eauto.
Qed.


(** *** A listener of a disposed controller *)

(** X14: [dispose] clears the slot without looking at what it holds.  So
    when the [close] listener of a controller that is not the one in the
    slot runs, the slot is emptied while the controller that was in it
    stays live; the next [createOrShow] then constructs another one, and
    two controllers are live. *)
Theorem stale_close_orphans_current (w : world) (cur old : ScreencastPanel)
  (c : ExtensionContext) (u : jsstring) :
  reachable w -> instance w = Some cur -> old ∈ objects w -> old <> cur ->
  let w1 := state (handler old SocketClose w) in
  let w2 := state (createOrShow c u w1) in
  instance w1 = None
  /\ live w1 cur = true
  /\ live_instances w2 = [cur; next_instance c u w].
Proof.
  intros Hr Hslot Hold Hne. cbv zeta.
  pose proof (reachable_Inv w Hr) as [Hrange Hls Hsl Hnd].
  destruct (reachable_well_formed w Hr) as (_ & _ & Hobj).
  destruct (Hsl cur Hslot) as (Hcur & Hp & Hs).
  assert (Hhandles : panel old <> panel cur).
  { apply list_elem_of_lookup_1 in Hold as [a Ha].
    apply list_elem_of_lookup_1 in Hcur as [b Hb].
    destruct (Hobj a old Ha) as (Hpa & _). destruct (Hobj b cur Hb) as (Hpb & _).
    intros Heq. apply Hne. assert (a = b) as -> by congruence. congruence. }
  unfold handler, onSocketClose. rewrite dispose_run. cbn [state].
  set (w1 := {| instance := None; objects := objects w;
                panels := alter release (panel old) (panels w);
                sockets := alter close_socket (panelSocket old) (sockets w) |}).
  assert (Hlive1 : forall q, q <> panel old ->
            panel_live w1 q = panel_live w q).
  { intros q Hq.
    change (panel_live (with_panels (alter release (panel old))
              {| instance := None; objects := objects w; panels := panels w;
                 sockets := alter close_socket (panelSocket old) (sockets w) |})
              q = panel_live w q).
    rewrite panel_live_release. case_decide; [congruence | reflexivity]. }
  assert (Hdead1 : forall x, x ∈ objects w -> live w1 x = true -> x = cur).
  { intros x Hx Hl.
    assert (Hlx : live w x = true).
    { unfold live in *. apply orb_true_iff in Hl as [Hl|Hl];
        apply orb_true_iff.
      - left. 
        change (panel_live (with_panels (alter release (panel old))
                  {| instance := None; objects := objects w;
                     panels := panels w;
                     sockets := alter close_socket (panelSocket old)
                                  (sockets w) |}) (panel x) = true) in Hl.
        rewrite panel_live_release in Hl.
        case_decide; [discriminate | exact Hl].
      - right.
        change (socket_live (with_sockets (alter close_socket (panelSocket old))
                  {| instance := None; objects := objects w;
                     panels := alter release (panel old) (panels w);
                     sockets := sockets w |}) (panelSocket x) = true) in Hl.
        rewrite socket_live_close in Hl.
        case_decide; [discriminate | exact Hl]. }
    specialize (Hls x Hx Hlx). congruence. }
  assert (Hcur1 : live w1 cur = true).
  { unfold live. rewrite Hlive1 by congruence. rewrite Hp. reflexivity. }
  split; [reflexivity|]. split; [exact Hcur1|].
  rewrite (createOrShow_fresh_run c u w1 eq_refl). cbn [state].
  assert (Hnew : next_instance c u w1 = next_instance c u w).
  { unfold next_instance, w1. cbn [panels sockets].
    rewrite !length_alter. reflexivity. }
  rewrite Hnew. unfold live_instances. cbn [objects].
  set (w2 := {| instance := Some (next_instance c u w);
                objects := objects w1 ++ [next_instance c u w];
                panels := panels w1 ++ [{| released := false;
                                           visible := created_visible;
                                           html := [] |}];
                sockets := sockets w1 ++ [{| socket_url := u;
                                             disposed := false |}] |}).
  assert (Hold2 : forall x, x ∈ objects w -> live w2 x = live w1 x).
  { intros x Hx. destruct (Hrange x Hx) as [Hpx Hsx].
    unfold live, panel_live, socket_live, w2. cbn [panels sockets].
    rewrite !lookup_app_l; [reflexivity | |];
      unfold w1; cbn [panels sockets]; rewrite length_alter; assumption. }
  rewrite List.filter_app.
  change [cur; next_instance c u w] with ([cur] ++ [next_instance c u w]).
  f_equal.
  - apply filter_one; auto.
    + rewrite Hold2 by exact Hcur. exact Hcur1.
    + intros x Hx Hl. rewrite Hold2 in Hl by exact Hx. auto.
  - cbn [List.filter].
    assert (Hl : live w2 (next_instance c u w) = true).
    { unfold live, panel_live, w2, next_instance.
      cbn [panels panel]. 
      replace (length (panels w)) with (length (panels w1))
        by (unfold w1; cbn [panels]; apply length_alter).
      rewrite list_lookup_middle by reflexivity. reflexivity. }
    rewrite Hl. reflexivity.
Qed.

End Further.

(** ** The further properties on the sample host *)

Lemma reshown_reachable : @reachable sample_host reshown.
Proof.
  apply (reachable_step torn); [|apply step_createOrShow].
  apply (reachable_step shown); [exact shown_reachable|].
  exact (step_createOrShow sample_context second_url shown).
Defined.

Lemma createOrShow_constructs_blank_panel_witness :
  instance (@initial sample_host) = None
  /\ panels shown !! 0
     = Some {| released := false; visible := true; html := [] |}
  /\ renders (effects (createOrShow sample_context sample_url initial)) = [].
Proof.
  split; [reflexivity|].
  pose proof (createOrShow_constructs_blank_panel initial sample_context
                sample_url eq_refl) as (_ & _ & _ & _ & H1 & _ & H2 & _).
  split; [exact H1 | exact H2].
Defined.

Lemma handles_have_one_owner_witness :
  reachable reshown
  /\ forall i j, i ∈ objects reshown -> j ∈ objects reshown ->
       panel i = panel j \/ panelSocket i = panelSocket j -> i = j.
Proof.
  split; [exact reshown_reachable|].
  exact (proj1 (handles_have_one_owner reshown reshown_reachable)).
Defined.

Lemma second_constructed : second ∈ objects reshown.
Proof.
  change (objects reshown) with [first; second].
  apply elem_of_cons. right. apply elem_of_cons. left. reflexivity.
Defined.

Lemma first_constructed : first ∈ objects reshown.
Proof.
  change (objects reshown) with [first; second].
  apply elem_of_cons. left. reflexivity.
Defined.

Lemma controller_fields_are_fixed_witness :
  reachable reshown /\ second ∈ objects reshown
  /\ exists s, sockets reshown !! panelSocket second = Some s
               /\ socket_url s = second_url.
Proof.
  split; [exact reshown_reachable|]. split; [exact second_constructed|].
  exact (proj2 (proj2 (controller_fields_are_fixed reshown second
                         reshown_reachable second_constructed))).
Defined.

Lemma released_for_good_witness :
  rtc step torn reshown
  /\ 0 < length (panels torn) /\ panel_live torn 0 = false
  /\ panel_live reshown 0 = false.
Proof.
  assert (Hsteps : rtc step torn reshown)
    by (apply rtc_once; exact (step_createOrShow sample_context second_url torn)).
  split; [exact Hsteps|]. split; [repeat constructor|].
  split; [reflexivity|].
  exact (proj1 (released_for_good torn reshown 0 0 Hsteps)
           ltac:(repeat constructor) eq_refl).
Defined.

Lemma quiet_listeners_keep_lifecycle_witness :
  WebviewDidReceiveMessage (js "ping") <> SocketClose
  /\ WebviewDidReceiveMessage (js "ping") <> PanelDidDispose
  /\ instance (state (handler first (WebviewDidReceiveMessage (js "ping")) shown))
     = Some first.
Proof.
  split; [discriminate|]. split; [discriminate|].
  exact (proj1 (quiet_listeners_keep_lifecycle first
                  (WebviewDidReceiveMessage (js "ping")) shown
                  ltac:(discriminate) ltac:(discriminate))).
Defined.

Lemma teardown_releases_everything_witness :
  reachable shown /\ instance shown = Some first
  /\ live (state (teardown first UserClose shown)) first = false
  /\ live_instances (state (teardown first UserClose shown)) = [].
Proof.
  split; [exact shown_reachable|]. split; [reflexivity|].
  pose proof (teardown_releases_everything first UserClose shown
                shown_reachable eq_refl) as (_ & _ & _ & H1 & H2).
  split; [exact H1 | exact H2].
Defined.

Lemma view_state_change_renders_when_visible_witness :
  panels shown !! panel first
  = Some {| released := false; visible := true; html := [] |}
  /\ exists h,
       panels (state (occur first (ViewStateChanges true) shown)) !! panel first
       = Some {| released := false; visible := true; html := h |}.
Proof.
  split; [reflexivity|].
  destruct (view_state_change_renders_when_visible first shown _ eq_refl
              eq_refl) as (h & _ & H1 & _).
  exists h. exact H1.
Defined.

Lemma reportError_null_throws_witness :
  JSON_parse (js " null ") = Some JNull
  /\ reportError first (js " null ") shown = Run (Throw TypeError) shown [].
Proof.
  split; [reflexivity|].
  exact (reportError_null_throws first (js " null ") shown eq_refl).
Defined.

Lemma reportError_scalar_goes_to_telemetry_witness :
  JSON_parse (jsq "['Oops','failed']")
  = Some (JArr [JStr (js "Oops"); JStr (js "failed")])
  /\ reportError first (jsq "['Oops','failed']") shown
     = Run (Ok tt) shown
         [ESendTelemetryErrorEvent (telemetryReporter first)
            (js "view/screencast/error")
            [(js "message", jsq "['Oops','failed']")]].
Proof.
  split; [reflexivity|].
  exact (reportError_scalar_goes_to_telemetry first (jsq "['Oops','failed']")
           (JArr [JStr (js "Oops"); JStr (js "failed")]) shown eq_refl I).
Defined.

Lemma stale_close_orphans_current_witness :
  reachable reshown /\ instance reshown = Some second
  /\ first ∈ objects reshown /\ first <> second
  /\ live_instances
       (state (createOrShow sample_context sample_url
                 (state (handler first SocketClose reshown))))
     = [second; next_instance sample_context sample_url reshown].
Proof.
  assert (Hne : first <> second) by (unfold first, second; discriminate).
  split; [exact reshown_reachable|]. split; [reflexivity|].
  split; [exact first_constructed|]. split; [exact Hne|].
  exact (proj2 (proj2 (stale_close_orphans_current reshown second first
                         sample_context sample_url reshown_reachable eq_refl
                         first_constructed Hne))).
Defined.
